(** * mosaic_traj: reading ROTRAJ trajectory files

    A shallow embedding of [src/mosaic_traj/read_traj.py] and the
    properties its specification states about it.

    The Python module reads a run file in two passes: [process_metadata]
    scans the header lines into a dictionary and counts the lines that
    precede the body, and [read_traj] hands the file to a chunked csv
    reader that delivers one trajectory block per [get_chunk] call.
    [read_data] globs a directory for the run files of a range of days.

    Files, directories and the working directory live in an explicit
    [world]; Python exceptions are the [Raise] outcomes of a small
    state-and-error monad. *)

From Stdlib Require Import ZArith Ascii String List Lia Bool.
From stdpp Require Import base option list gmap strings.

Local Open Scope string_scope.
Local Open Scope list_scope.

(** ** Exceptions and results *)

(** The Python exceptions the module can raise, by class.  [Unmodelled]
    marks an input on which a library call leaves the part of its
    behaviour that this development describes. *)
Inductive exn : Type :=
  | ValueError (msg : string)
  | TypeError (msg : string)
  | IndexError
  | KeyError (key : string + Z)
  | StopIteration
  | FileNotFoundError (path : string)
  | OverflowError
  | ParserError
  | OutOfBoundsDatetime
  | Unmodelled (what : string).

Inductive result (A : Type) : Type :=
  | OK (a : A)
  | Raise (e : exn).
Arguments OK {A} a.
Arguments Raise {A} e.

#[global] Instance result_ret : MRet result := fun A a => OK a.
#[global] Instance result_bind : MBind result := fun A B f m =>
  match m with
  | OK a => f a
  | Raise e => Raise e
  end.

#[global] Instance result_fmap : FMap result := fun A B f m =>
  match m with
  | OK a => OK (f a)
  | Raise e => Raise e
  end.

Definition is_ok {A} (r : result A) : bool :=
  match r with OK _ => true | Raise _ => false end.

(** ** Strings, as the header scan uses them *)

(** A run file is ASCII text.  On other characters the classes of
    digits, of white space and of letters that Python uses are wider
    than the ones below. *)

Module Str.

Definition code (c : ascii) : N := N_of_ascii c.

(** [str.lower] on the ASCII letters. *)
Definition lower_ascii (c : ascii) : ascii :=
  if ((65 <=? code c) && (code c <=? 90))%N
  then ascii_of_N (code c + 32) else c.

Fixpoint lower (s : string) : string :=
  match s with
  | EmptyString => EmptyString
  | String c s' => String (lower_ascii c) (lower s')
  end.

(** [s.rstrip('\n')]: every trailing newline goes. *)
Fixpoint rstrip_nl (s : string) : string :=
  match s with
  | EmptyString => EmptyString
  | String c s' =>
      match rstrip_nl s' with
      | EmptyString => if (code c =? 10)%N then EmptyString
                       else String c EmptyString
      | r => String c r
      end
  end.

(** [sub in s]. *)
Fixpoint contains (sub s : string) : bool :=
  String.prefix sub s ||
  match s with
  | EmptyString => false
  | String _ s' => contains sub s'
  end.

Definition digit (c : ascii) : option Z :=
  if ((48 <=? code c) && (code c <=? 57))%N
  then Some (Z.of_N (code c) - 48)%Z else None.

Definition is_digit (c : ascii) : bool :=
  match digit c with Some _ => true | None => false end.

(** Python's [\s] on ASCII. *)
Definition is_space (c : ascii) : bool :=
  (((9 <=? code c) && (code c <=? 13)) ||
   ((28 <=? code c) && (code c <=? 32)))%N.

(** [[int(x) for x in re.findall('\d+', s)]]: the maximal runs of
    digits, left to right, each read as a decimal number.  [cur] is
    the run being read. *)
Fixpoint digit_runs (s : string) (cur : option Z) : list Z :=
  match s with
  | EmptyString => match cur with Some n => [n] | None => [] end
  | String c s' =>
      match digit c with
      | Some d => digit_runs s' (Some (10 * default 0%Z cur + d)%Z)
      | None =>
          match cur with
          | Some n => n :: digit_runs s' None
          | None => digit_runs s' None
          end
      end
  end.

Definition findall_int (s : string) : list Z := digit_runs s None.

(** The first [n] characters of [s] when they are all digits. *)
Fixpoint take_digits (n : nat) (s : string) : option string :=
  match n with
  | O => Some EmptyString
  | S n' =>
      match s with
      | EmptyString => None
      | String c s' =>
          if is_digit c then String c <$> take_digits n' s' else None
      end
  end.

(** [re.search('\d{10}', s)]: the leftmost ten consecutive digits. *)
Fixpoint search_digits10 (s : string) : option string :=
  match take_digits 10 s with
  | Some d => Some d
  | None =>
      match s with
      | EmptyString => None
      | String _ s' => search_digits10 s'
      end
  end.

Fixpoint lstrip_space (s : string) : string :=
  match s with
  | EmptyString => EmptyString
  | String c s' => if is_space c then lstrip_space s' else s
  end.

(** [re.split(':\s*', s)[-1]]: what follows the last colon and the
    white space after it; all of [s] when it has no colon. *)
Fixpoint last_field (s : string) : string :=
  match s with
  | EmptyString => EmptyString
  | String c s' =>
      if (code c =? 58)%N && negb (contains ":" s') then lstrip_space s'
      else if contains ":" s then last_field s'
      else s
  end.

(** [s.split(sep)] for a one-character separator. *)
Fixpoint split_on (sep : ascii) (s : string) (cur : string) : list string :=
  match s with
  | EmptyString => [cur]
  | String c s' =>
      if Ascii.eqb c sep then cur :: split_on sep s' EmptyString
      else split_on sep s' (cur +:+ String c EmptyString)
  end.

Definition starts_with (p s : string) : bool := String.prefix p s.

Definition ends_with (p s : string) : bool :=
  let n := String.length s in
  let k := String.length p in
  (k <=? n)%nat && String.eqb (substring (n - k) k s) p.

End Str.

(** ** The header scan: [process_metadata] *)

(** What [get_numeric] returns: the single number of a line, or the list
    of them when the line carries more than one. *)
Inductive numeric : Type :=
  | NumInt (n : Z)
  | NumList (l : list Z).

(** Values of the metadata dictionary. *)
Inductive mdval : Type :=
  | MDate (d : option string)
  | MNum (v : numeric)
  | MBool (b : bool)
  | MNames (l : list string).

Abbreviation metadata := (gmap string mdval).

(** The fixed table of attribute codes. *)
Definition ATTR : gmap Z string :=
  <[1%Z := "temperature (K)"]>
  (<[3%Z := "potential vorticity (PVU)"]>
  (<[4%Z := "specific humidity (kg/kg)"]>
  (<[10%Z := "height (m)"]>
  (<[159%Z := "boundary layer height (m)"]> ∅)))).

Definition get_date (line : string) : option string :=
  Str.search_digits10 line.

Definition get_numeric (line : string) : result numeric :=
  match Str.findall_int line with
  | [] => Raise IndexError
  | [n] => OK (NumInt n)
  | m => OK (NumList m)
  end.

Definition get_boolean (line : string) : bool :=
  String.eqb (Str.last_field line) "t".

(** The branch of the [if]/[elif] chain a lowered line takes; the order
    of the tests is the order of the chain. *)
Inductive label : Type :=
  | LMarker | LTrajBase | LDataBase | LInterval | LTotal | LNumAttr
  | LAttrTypes | LNumClusters | LClusterPtrs | L3D | LForecast | LForward
  | LOther.

Definition classify (line : string) : label :=
  if Str.contains "trajectory number" line then LMarker
  else if Str.contains "trajectory base time" line then LTrajBase
  else if Str.contains "data base time" line then LDataBase
  else if Str.contains "data interval" line then LInterval
  else if Str.contains "total number of trajectories" line then LTotal
  else if Str.contains "number of attributes" line then LNumAttr
  else if Str.contains "attribute types" line then LAttrTypes
  else if Str.contains "number of clusters" line then LNumClusters
  else if Str.contains "cluster pointers" line then LClusterPtrs
  else if Str.contains "3d trajectory" line then L3D
  else if Str.contains "forecast data" line then LForecast
  else if Str.contains "forward trajectory" line then LForward
  else LOther.

(** [line.lower().rstrip('\n')] *)
Definition norm (raw : string) : string := Str.rstrip_nl (Str.lower raw).

(** The [for i, line in enumerate(f)] loop.  [f] is what is left of the
    file, [i] the index [enumerate] gives the next line and [count] the
    running counter.  [next(f)] takes a line from [f] without a step of
    [enumerate], and raises [StopIteration] at the end of the file. *)
Fixpoint header_loop (f : list string) (i count : nat) (md : metadata)
  : result (metadata * nat) :=
  match f with
  | [] => OK (md, count)
  | raw :: f' =>
      let line := norm raw in
      match classify line with
      | LMarker => OK (md, count + i)
      | LTrajBase =>
          header_loop f' (S i) count
            (<["trajectory base time" := MDate (get_date line)]> md)
      | LDataBase =>
          header_loop f' (S i) count
            (<["data base time" := MDate (get_date line)]> md)
      | LInterval =>
          vals ← get_numeric line;
          match vals with
          | NumInt _ => Raise (TypeError "object of type 'int' has no len()")
          | NumList [h; t] =>
              header_loop f' (S i) count
                (<["data interval timesteps" := MNum (NumInt t)]>
                 (<["data interval hours" := MNum (NumInt h)]> md))
          | NumList _ =>
              Raise (ValueError "Unexpected number of values in data interval")
          end
      | LTotal =>
          v ← get_numeric line;
          header_loop f' (S i) count
            (<["total number of trajectories" := MNum v]> md)
      | LNumAttr =>
          v ← get_numeric line;
          header_loop f' (S i) count (<["number of attributes" := MNum v]> md)
      | LAttrTypes =>
          match f' with
          | [] => Raise StopIteration
          | nxt :: f'' =>
              v ← get_numeric nxt;
              header_loop f'' (S i) (S count)
                (<["attribute types" := MNum v]> md)
          end
      | LNumClusters =>
          v ← get_numeric line;
          header_loop f' (S i) count (<["number of clusters" := MNum v]> md)
      | LClusterPtrs =>
          match f' with
          | [] => Raise StopIteration
          | nxt :: f'' =>
              v ← get_numeric nxt;
              header_loop f'' (S i) (S count)
                (<["cluster pointers" := MNum v]> md)
          end
      | L3D =>
          header_loop f' (S i) count
            (<["3d trajectory" := MBool (get_boolean line)]> md)
      | LForecast =>
          header_loop f' (S i) count
            (<["forecast data" := MBool (get_boolean line)]> md)
      | LForward =>
          header_loop f' (S i) count
            (<["forward trajectory" := MBool (get_boolean line)]> md)
      | LOther => header_loop f' (S i) count md
      end
  end.

(** ** The world: files, directories, working directory *)

(** [files] maps a path to the lines of the file, each with its line
    end as iteration over a Python file yields them; [dirs] maps a
    directory to the names in it, in listing order.  Paths are compared
    as written once joined to the working directory. *)
Record world : Type := World {
  cwd : string;
  dirs : gmap string (list string);
  files : gmap string (list string)
}.

(** Computations that read or change the world and may raise.  An
    exception keeps the world as it was when raised: nothing is rolled
    back. *)
Definition M (A : Type) : Type := world → result A * world.

#[global] Instance M_ret : MRet M := fun A a w => (OK a, w).
#[global] Instance M_bind : MBind M := fun A B f m w =>
  match m w with
  | (OK a, w') => f a w'
  | (Raise e, w') => (Raise e, w')
  end.

Definition raise {A} (e : exn) : M A := fun w => (Raise e, w).
Definition lift {A} (r : result A) : M A := fun w => (r, w).

Module os.

(** [os.path.join] of two components. *)
Definition join (a b : string) : string :=
  if Str.starts_with "/" b then b
  else if String.eqb a "" then b
  else if Str.ends_with "/" a then a +:+ b
  else a +:+ "/" +:+ b.

Definition abspath (w : world) (p : string) : string := join (cwd w) p.

(** [os.path.basename]: what follows the last slash. *)
Definition basename (p : string) : string :=
  default p (last (Str.split_on "/" p "")).

Definition isdir (p : string) : M bool := fun w =>
  (OK (bool_decide (is_Some (dirs w !! abspath w p))), w).

Definition getcwd : M string := fun w => (OK (cwd w), w).

Definition chdir (p : string) : M unit := fun w =>
  match dirs w !! abspath w p with
  | Some _ => (OK (), World (abspath w p) (dirs w) (files w))
  | None => (Raise (FileNotFoundError p), w)
  end.

(** [open(p)] read to the end: the lines of the file. *)
Definition open (p : string) : M (list string) := fun w =>
  match files w !! abspath w p with
  | Some ls => (OK ls, w)
  | None => (Raise (FileNotFoundError p), w)
  end.

End os.

Module glob.

(** [fnmatch] for patterns made of literal characters and [*]. *)
Fixpoint fnmatch (pat name : string) : bool :=
  match pat with
  | EmptyString => String.eqb name ""
  | String c pat' =>
      if Ascii.eqb c "*"
      then (fix star (n : string) : bool :=
              fnmatch pat' n ||
              match n with
              | EmptyString => false
              | String _ n' => star n'
              end) name
      else match name with
           | EmptyString => false
           | String d name' => Ascii.eqb c d && fnmatch pat' name'
           end
  end.

(** [glob.glob(pattern)] for a pattern without a directory part: the
    matching names of the working directory, in listing order. *)
Definition glob (pattern : string) : M (list string) := fun w =>
  (OK (filter (fun n => fnmatch pattern n = true)
         (default [] (dirs w !! cwd w))), w).

End glob.

(** ** Dates and times *)

Module dt.

Local Open Scope Z_scope.

(** A [datetime.datetime]: civil fields and, for an aware value, the
    offset from UTC in seconds. *)
Record datetime : Type := Datetime {
  year : Z; month : Z; day : Z;
  hour : Z; minute : Z; second : Z;
  tzoffset : option Z
}.

Definition is_leap (y : Z) : bool :=
  (y mod 4 =? 0) && (negb (y mod 100 =? 0) || (y mod 400 =? 0)).

Definition days_in_month (y m : Z) : Z :=
  if m =? 2 then (if is_leap y then 29 else 28)
  else if (m =? 4) || (m =? 6) || (m =? 9) || (m =? 11) then 30
  else 31.

(** Days from 1970-01-01 to the civil date, proleptic Gregorian. *)
Definition days_from_civil (y m d : Z) : Z :=
  let y' := if m <=? 2 then y - 1 else y in
  let era := y' / 400 in
  let yoe := y' - era * 400 in
  let doy := (153 * (if 2 <? m then m - 3 else m + 9) + 2) / 5 + d - 1 in
  let doe := yoe * 365 + yoe / 4 - yoe / 100 + doy in
  era * 146097 + doe - 719468.

Definition civil_from_days (z : Z) : Z * Z * Z :=
  let z := z + 719468 in
  let era := z / 146097 in
  let doe := z - era * 146097 in
  let yoe := (doe - doe / 1460 + doe / 36524 - doe / 146096) / 365 in
  let doy := doe - (365 * yoe + yoe / 4 - yoe / 100) in
  let mp := (5 * doy + 2) / 153 in
  let d := doy - (153 * mp + 2) / 5 + 1 in
  let m := if mp <? 10 then mp + 3 else mp - 9 in
  (if m <=? 2 then yoe + era * 400 + 1 else yoe + era * 400, m, d).

(** [date.toordinal()]: day 1 is 0001-01-01. *)
Definition toordinal (t : datetime) : Z :=
  days_from_civil (year t) (month t) (day t) + 719163.

Definition max_ordinal : Z := 3652059.

Definition valid_date (y m d : Z) : bool :=
  (1 <=? y) && (y <=? 9999) && (1 <=? m) && (m <=? 12) &&
  (1 <=? d) && (d <=? days_in_month y m).

Definition valid_time (h mi s : Z) : bool :=
  (0 <=? h) && (h <=? 23) && (0 <=? mi) && (mi <=? 59) &&
  (0 <=? s) && (s <=? 59).

(** A decimal numeral, all digits. *)
Fixpoint num_acc (s : string) (acc : Z) : option Z :=
  match s with
  | EmptyString => Some acc
  | String c s' =>
      match Str.digit c with
      | Some d => num_acc s' (10 * acc + d)
      | None => None
      end
  end.

Definition num (s : string) : option Z :=
  match s with
  | EmptyString => None
  | _ => num_acc s 0
  end.

Definition digit_char (d : Z) : ascii := ascii_of_N (Z.to_N (48 + d)).

(** [z] in [w] digits, zero padded. *)
Fixpoint pad (w : nat) (z : Z) : string :=
  match w with
  | O => EmptyString
  | S w' => pad w' (z / 10) +:+ String (digit_char (z mod 10)) EmptyString
  end.

Definition field (s : string) (start len : nat) : option Z :=
  num (substring start len s).

Definition char_at (s : string) (i : nat) (c : ascii) : bool :=
  match String.get i s with
  | Some c' => Ascii.eqb c c'
  | None => false
  end.

(** [datetime.strptime(s, '%Y%m%d%H')] on a string of ten digits, which
    is what [get_date] yields: four digits of year and two each of
    month, day and hour, then the range checks of [datetime]. *)
Definition strptime_YmdH (s : string) : result datetime :=
  if negb (String.length s =? 10)%nat
  then Raise (Unmodelled "strptime")
  else
    match field s 0 4, field s 4 2, field s 6 2, field s 8 2 with
    | Some y, Some m, Some d, Some h =>
        if valid_date y m d && valid_time h 0 0
        then OK (Datetime y m d h 0 0 None)
        else Raise (ValueError "time data does not match format")
    | _, _, _, _ => Raise (Unmodelled "strptime")
    end.

(** [%Y] as the C library of Linux writes it: the year without leading
    zeros, so four digits from the year 1000 on and fewer before. *)
Definition strftime_Y (y : Z) : string :=
  if y <? 10 then pad 1 y
  else if y <? 100 then pad 2 y
  else if y <? 1000 then pad 3 y
  else pad 4 y.

(** [t.strftime('%Y-%m-%d')] *)
Definition strftime_Ymd (t : datetime) : string :=
  strftime_Y (year t) +:+ "-" +:+ pad 2 (month t) +:+ "-" +:+ pad 2 (day t).

(** [t.strftime("rtraj*%Y%m%d00")] *)
Definition strftime_glob (t : datetime) : string :=
  "rtraj*" +:+ strftime_Y (year t) +:+ pad 2 (month t) +:+ pad 2 (day t)
  +:+ "00".

Definition iso_error {A} : result A :=
  Raise (ValueError "Invalid isoformat string").

(** A string that has not the shape read here: what [fromisoformat]
    makes of it depends on the version of Python. *)
Definition iso_other {A} : result A := Raise (Unmodelled "fromisoformat").

Definition parse_iso_date (s : string) : result (Z * Z * Z) :=
  match field s 0 4, field s 5 2, field s 8 2 with
  | Some y, Some m, Some d =>
      if char_at s 4 "-" && char_at s 7 "-"
      then if valid_date y m d then OK (y, m, d) else iso_error
      else iso_other
  | _, _, _ => iso_other
  end.

Definition parse_iso_time (s : string) : result (Z * Z * Z) :=
  match field s 11 2, field s 14 2, field s 17 2 with
  | Some h, Some mi, Some sec =>
      if char_at s 13 ":" && char_at s 16 ":"
      then if valid_time h mi sec then OK (h, mi, sec)
           else if (h =? 24) && (mi =? 0) && (sec =? 0) then iso_other
           else iso_error
      else iso_other
  | _, _, _ => iso_other
  end.

Definition parse_iso_tz (s : string) : result Z :=
  match field s 20 2, field s 23 2 with
  | Some h, Some mi =>
      let off := h * 3600 + mi * 60 in
      if char_at s 22 ":" && (mi <? 60)
      then if char_at s 19 "+"
           then if off <? 86400 then OK off else iso_error
           else if char_at s 19 "-"
           then if off <? 86400 then OK (- off) else iso_error
           else iso_other
      else iso_other
  | _, _ => iso_other
  end.

(** [datetime.fromisoformat] on the three shapes [YYYY-MM-DD],
    [YYYY-MM-DD?HH:MM:SS] and [YYYY-MM-DD?HH:MM:SS+HH:MM] (any
    separator character, either sign): a string of one of these shapes
    is read, or is a [ValueError] when a field is out of its range.
    Every other string is left out, and so are midnight written as hour
    24 and an offset of sixty minutes or more: some are read by every
    version of Python, some by the later ones only. *)
Definition fromisoformat (s : string) : result datetime :=
  let n := String.length s in
  if (n =? 10)%nat then
    '(y, m, d) ← parse_iso_date s;
    OK (Datetime y m d 0 0 0 None)
  else if (n =? 19)%nat then
    '(y, m, d) ← parse_iso_date s;
    '(h, mi, sec) ← parse_iso_time s;
    OK (Datetime y m d h mi sec None)
  else if (n =? 25)%nat then
    '(y, m, d) ← parse_iso_date s;
    '(h, mi, sec) ← parse_iso_time s;
    off ← parse_iso_tz s;
    OK (Datetime y m d h mi sec (Some off))
  else iso_other.

Definition local_seconds (t : datetime) : Z :=
  days_from_civil (year t) (month t) (day t) * 86400
  + hour t * 3600 + minute t * 60 + second t.

(** [(b - a)] in seconds.  Two naive values differ by their civil
    fields, two aware ones by their instants; a naive and an aware one
    do not subtract. *)
Definition sub (b a : datetime) : result Z :=
  match tzoffset b, tzoffset a with
  | None, None => OK (local_seconds b - local_seconds a)
  | Some ob, Some oa => OK ((local_seconds b - ob) - (local_seconds a - oa))
  | _, _ =>
      Raise (TypeError "can't subtract offset-naive and offset-aware datetimes")
  end.

(** [timedelta.days]: whole days, rounded down. *)
Definition days (delta : Z) : Z := delta / 86400.

(** [t + timedelta(n)] *)
Definition add_days (t : datetime) (n : Z) : result datetime :=
  let o := toordinal t + n in
  if (1 <=? o) && (o <=? max_ordinal)
  then let '(y, m, d) := civil_from_days (o - 719163) in
       OK (Datetime y m d (hour t) (minute t) (second t) (tzoffset t))
  else Raise OverflowError.

End dt.

(** The generator [daterange], run to its end.  It is consumed inside
    one list comprehension whose other calls change nothing, so the
    dates are produced at once; an exception of the generator is the
    exception of the comprehension. *)
Definition daterange (start_date : dt.datetime) (end_date : option dt.datetime)
  : result (list dt.datetime) :=
  let end_date := default start_date end_date in
  delta ← dt.sub end_date start_date;
  mapM (fun n => dt.add_days start_date (Z.of_nat n))
       (seq 0 (Z.to_nat (dt.days delta + 1))).

(** ** The csv reader and the frames *)

Module pd.

Local Open Scope Z_scope.

(** The value of the index column in a row of a frame: an integer when
    the column is read as integers.  Otherwise pandas makes of the
    column floats, booleans or text; the value is then given as the
    field the file has, and is not described further. *)
Inductive index_value : Type :=
  | IInt (z : Z)
  | IOther (field : string).

(** A row of a frame: the value of its [STEP] column, which is the
    index column, and the fields of the other columns, as written in
    the file. *)
Record row : Type := Row { step : index_value; values : list string }.

(** A frame read by one [get_chunk]. *)
Abbreviation chunk := (list row).

(** The frame [concat] builds: each row under its outer key, a
    timestamp in nanoseconds since 1970-01-01, and its own [step]. *)
Abbreviation table := (list (Z * row)).

(** With [delim_whitespace=True] blanks and tabs separate the fields;
    the end of the line ends the row. *)
Definition is_delim (c : ascii) : bool :=
  ((Str.code c =? 32) || (Str.code c =? 9) || (Str.code c =? 10))%N.

Fixpoint tokens (s : string) (cur : string) : list string :=
  match s with
  | EmptyString => match cur with EmptyString => [] | _ => [cur] end
  | String c s' =>
      if is_delim c
      then match cur with
           | EmptyString => tokens s' EmptyString
           | _ => cur :: tokens s' EmptyString
           end
      else tokens s' (cur +:+ String c EmptyString)
  end.

Definition fields (line : string) : list string := tokens line "".

Definition nfields (line : string) : nat := length (fields line).

(** A line without a field is not a row ([skip_blank_lines]). *)
Definition blank (line : string) : bool :=
  match fields line with [] => true | _ => false end.

(** A line that the reader takes as the file iteration of Python gives
    it: no quote character, no carriage return, and no line feed but at
    its end. *)
Fixpoint plain (line : string) : bool :=
  match line with
  | EmptyString => true
  | String c s' =>
      if (Str.code c =? 10)%N then String.eqb s' ""
      else negb ((Str.code c =? 34) || (Str.code c =? 13))%N && plain s'
  end.

(** A field that is a decimal numeral of at most 18 digits, and the
    integer it is read as. *)
Definition int_token (s : string) : option Z :=
  if (String.length s <=? 18)%nat then dt.num s else None.

Definition index_field (fs : list string) : string := default "" (head fs).

(** The frame of some lines.  The type of the index column is inferred
    from all of them: integers when every [STEP] field is one. *)
Definition frame (lines : list string) : chunk :=
  let rows := fields <$> lines in
  match mapM (fun fs => int_token (index_field fs)) rows with
  | Some zs => zip_with (fun z fs => Row (IInt z) (tail fs)) zs rows
  | None => (fun fs => Row (IOther (index_field fs)) (tail fs)) <$> rows
  end.

(** The iterator [read_csv(..., iterator=True)] returns: the lines
    still to be read, the number of columns, and whether no read has
    been made yet. *)
Record TextFileReader : Type := Reader {
  pending : list string;
  ncols : nat;
  first_chunk : bool
}.

(** What the reader makes of the lines of a file, [ncols] being the
    number of names.  The first [skiprows] lines are passed over, blank
    lines are not rows, and the first line that is left is the header
    row, which the names replace; with names given a file with nothing
    left is no error.  The reader is described for files of plain lines
    in which the header row and the first row do not exceed the names
    and one of them has a field for each name; what pandas does of
    other files (quoted fields, an index taken from surplus leading
    columns) is left out. *)
Definition reader_of (lines : list string) (skiprows ncols : nat)
  : result TextFileReader :=
  if negb (forallb plain lines) then Raise (Unmodelled "quoting")
  else
  match filter (fun l => blank l = false) (drop skiprows lines) with
  | [] | [_] => OK (Reader [] ncols true)
  | hdr :: ((first :: _) as rows) =>
      if (nfields hdr `max` nfields first =? ncols)%nat
      then OK (Reader rows ncols true)
      else Raise (Unmodelled "table width")
  end.

(** [read_csv(filepath, skiprows=n, header=0, names=names,
    delim_whitespace=True, iterator=True)].  Names must be distinct. *)
Definition read_csv (filepath : string) (skiprows : nat) (names : list string)
  : M TextFileReader :=
  if negb (bool_decide (NoDup names))
  then raise (ValueError "Duplicate names are not allowed.")
  else
  lines ← os.open filepath;
  lift (reader_of lines skiprows (length names)).

(** [reader.get_chunk(size)]: up to [size] rows.  A row among them
    with more fields than there are columns is a [ParserError].  With
    no row left the first read of a reader gives an empty frame; a
    later one raises [StopIteration]. *)
Definition get_chunk (size : nat) (r : TextFileReader)
  : result (chunk * TextFileReader) :=
  match pending r with
  | [] => if first_chunk r then OK ([], Reader [] (ncols r) false)
          else Raise StopIteration
  | _ =>
      let taken := take size (pending r) in
      if forallb (fun l => (nfields l <=? ncols r)%nat) taken
      then OK (frame taken, Reader (drop size (pending r)) (ncols r) false)
      else Raise ParserError
  end.

Definition keyed (kc : Z * option chunk) : option (Z * chunk) :=
  c ← kc.2; Some (kc.1, c).

(** [pd.concat(objs, keys=keys)]: the [None] entries go, with their
    keys; the rows of each frame that is left come under its key. *)
Definition concat (objs : list (option chunk)) (keys : list Z)
  : result table :=
  match objs with
  | [] => Raise (ValueError "No objects to concatenate")
  | _ =>
      match omap keyed (zip keys objs) with
      | [] => Raise (ValueError "All objects passed were None")
      | kept => OK (kept ≫= fun kc => (fun r => (kc.1, r)) <$> kc.2)
      end
  end.

Definition unit_ns (u : string) : option Z :=
  if String.eqb u "D" then Some 86400000000000
  else if String.eqb u "h" then Some 3600000000000
  else if String.eqb u "min" then Some 60000000000
  else if String.eqb u "s" then Some 1000000000
  else if String.eqb u "ms" then Some 1000000
  else if String.eqb u "us" then Some 1000
  else if String.eqb u "ns" then Some 1
  else None.

Fixpoint split_digits (s : string) (acc : string) : string * string :=
  match s with
  | EmptyString => (acc, EmptyString)
  | String c s' =>
      if Str.is_digit c then split_digits s' (acc +:+ String c EmptyString)
      else (acc, s)
  end.

(** The step of a frequency string, in nanoseconds, for the fixed
    frequencies written as a positive count (one when absent) and one
    of the units [D], [h], [min], [s], [ms], [us], [ns]. *)
Definition to_offset (freq : string) : result Z :=
  let '(n, u) := split_digits freq "" in
  match unit_ns u with
  | Some ns =>
      match n with
      | EmptyString => OK ns
      | _ => match dt.num n with
             | Some k => if 0 <? k then OK (k * ns)
                         else Raise (Unmodelled "to_offset")
             | None => Raise (Unmodelled "to_offset")
             end
      end
  | None => Raise (Unmodelled "to_offset")
  end.

(** The timestamp a [YYYY-MM-DD] string denotes: midnight of the day. *)
Definition to_timestamp (s : string) : result Z :=
  if negb (String.length s =? 10)%nat
  then Raise (Unmodelled "Timestamp")
  else match dt.parse_iso_date s with
       | OK (y, m, d) => OK (dt.days_from_civil y m d * 86400000000000)
       | Raise _ => Raise (Unmodelled "Timestamp")
       end.

(** 64-bit nanoseconds bound the timestamps. *)
Definition in_bounds (t : Z) : bool := (- 2 ^ 63 <? t) && (t <? 2 ^ 63).

(** [pd.date_range(start, periods=n, freq=freq)]: the start and the end
    of the range, [periods] steps after the start, must be within the
    bounds. *)
Definition date_range (start : string) (periods : nat) (freq : string)
  : result (list Z) :=
  delta ← to_offset freq;
  t0 ← to_timestamp start;
  let keys := (fun i => t0 + Z.of_nat i * delta) <$> seq 0 periods in
  if in_bounds t0 && in_bounds (t0 + Z.of_nat periods * delta) then OK keys
  else Raise OutOfBoundsDatetime.

End pd.

(** ** [process_metadata] and [read_traj] *)

Definition process_metadata (file : string) : M (metadata * nat) :=
  f ← os.open file;
  lift (header_loop f 0 0 ∅).

Definition nts : nat := 88.

(** [d[k]] *)
Definition getitem (md : metadata) (k : string) : result mdval :=
  match md !! k with
  | Some v => OK v
  | None => Raise (KeyError (inl k))
  end.

(** [fn[-2]] *)
Definition penultimate (fn : list string) : result string :=
  match rev fn with
  | _ :: x :: _ => OK x
  | _ => Raise IndexError
  end.

(** [[ATTR[x] for x in types]] *)
Definition attribute_names (types : mdval) : result (list string) :=
  match types with
  | MNum (NumList codes) =>
      mapM (fun x => match ATTR !! x with
                     | Some name => OK name
                     | None => Raise (KeyError (inr x))
                     end) codes
  | MNum (NumInt _) => Raise (TypeError "'int' object is not iterable")
  | MBool _ => Raise (TypeError "'bool' object is not iterable")
  | MDate None => Raise (TypeError "'NoneType' object is not iterable")
  | MDate (Some _) | MNames _ => Raise (Unmodelled "attribute types")
  end.

(** [[None]*npart] *)
Definition none_list (npart : mdval) : result (nat * list (option pd.chunk)) :=
  match npart with
  | MNum (NumInt n) => OK (Z.to_nat n, replicate (Z.to_nat n) None)
  | MNum (NumList _) =>
      Raise (TypeError "can't multiply sequence by non-int of type 'list'")
  | MDate None =>
      Raise (TypeError "can't multiply sequence by non-int of type 'NoneType'")
  | MBool _ | MDate (Some _) | MNames _ => Raise (Unmodelled "npart")
  end.

Definition base_time (v : mdval) : result dt.datetime :=
  match v with
  | MDate (Some s) => dt.strptime_YmdH s
  | MDate None => Raise (TypeError "strptime() argument 1 must be str, not None")
  | _ => Raise (TypeError "strptime() argument 1 must be str")
  end.

(** [['STEP', 'HOURS', 'LAT', 'LON', 'P (MB)'] + metadata['attribute names']] *)
Definition col_names (names : list string) : list string :=
  ["STEP"; "HOURS"; "LAT"; "LON"; "P (MB)"] ++ names.

(** The [while i < npart] loop; [todo] is [npart - i].  A
    [StopIteration] of either read breaks out of the loop, after the
    assignment to [traj_list[i]] when it comes from the second. *)
Fixpoint read_loop (todo i : nat) (reader : pd.TextFileReader)
    (traj_list : list (option pd.chunk)) : result (list (option pd.chunk)) :=
  match todo with
  | O => OK traj_list
  | S todo' =>
      match pd.get_chunk (nts + 1) reader with
      | Raise StopIteration => OK traj_list
      | Raise e => Raise e
      | OK (chunk, reader) =>
          let traj_list := <[i := Some chunk]> traj_list in
          match pd.get_chunk 2 reader with
          | Raise StopIteration => OK traj_list
          | Raise e => Raise e
          | OK (_, reader) => read_loop todo' (S i) reader traj_list
          end
      end
  end.

Definition read_traj (filepath : string) : M (pd.table * metadata) :=
  '(metadata, end_) ← process_metadata filepath;
  let fn := Str.split_on "_" (os.basename filepath) "" in
  freq ← lift (penultimate fn);
  traj_dt ← lift (getitem metadata "trajectory base time" ≫= base_time);
  npart ← lift (getitem metadata "total number of trajectories");
  names ← lift (getitem metadata "attribute types" ≫= attribute_names);
  let metadata := <["attribute names" := MNames names]> metadata in
  let col_names := col_names names in
  let skip_rows := (end_ + 1)%nat in
  '(n, traj_list) ← lift (none_list npart);
  reader ← pd.read_csv filepath skip_rows col_names;
  traj_list ← lift (read_loop n 0 reader traj_list);
  let ts := dt.strftime_Ymd traj_dt in
  keys ← lift (pd.date_range ts n freq);
  df ← lift (pd.concat traj_list keys);
  mret (df, metadata).

(** ** [read_data] *)

Definition read_data (input_dir start_date : string) (end_date : option string)
  : M (list (pd.table * metadata)) :=
  isdir ← os.isdir input_dir;
  if negb isdir then raise (ValueError "Not a directory") else
  start_date ← lift (dt.fromisoformat start_date);
  end_date ← match end_date with
             | Some e => lift (Some <$> dt.fromisoformat e)
             | None => mret None
             end;
  start_dir ← os.getcwd;
  _ ← os.chdir input_dir;
  dates ← lift (daterange start_date end_date);
  files ← mapM (fun date => glob.glob (dt.strftime_glob date)) dates;
  let files := mjoin files in
  _ ← os.chdir start_dir;
  mapM (fun file => read_traj (os.join input_dir file)) files.

(** ** Sample run files *)

Module Sample.

Definition nl : string := String (ascii_of_N 10) EmptyString.

Definition lines (ls : list string) : list string :=
  (fun l => l +:+ nl) <$> ls.

(** The header of the docstring of [process_metadata], with base time
    [stamp], declaring [npart] trajectories. *)
Definition header_on (stamp : string) (npart : nat) : list string :=
  lines
    [ " TRAJECTORY BASE TIME IS " +:+ stamp;
      " DATA BASE TIME IS 2021051700";
      " DATA INTERVAL IS    3 HOURS AND CONTAINS    6 TIMESTEPS";
      " TOTAL NUMBER OF TRAJECTORIES IS  " +:+ dt.pad 4 (Z.of_nat npart);
      " NUMBER OF ATTRIBUTES IS    5";
      " ATTRIBUTE TYPES = ";
      "   1   3   4  10 159";
      " NUMBER OF CLUSTERS IS    1";
      " CLUSTER POINTERS = ";
      "      1";
      " 3D TRAJECTORY ? (T OR F): T";
      " FORECAST DATA ? (T OR F): F";
      " FORWARD TRAJECTORY ? (T OR F): F";
      "" ].

Definition header (npart : nat) : list string :=
  header_on "2019092200" npart.

Definition record (k i : nat) : string :=
  "  " +:+ dt.pad 2 (Z.of_nat i) +:+ "   " +:+ dt.pad 2 (Z.of_nat i)
  +:+ ".00  84.90  -12.30  10" +:+ dt.pad 2 (Z.of_nat k)
  +:+ ".1  270.0  0.5  0.001  10.0  500.0".

Definition marker (k : nat) : string :=
  " TRAJECTORY NUMBER  " +:+ dt.pad 4 (Z.of_nat k)
  +:+ " COMPRISES    88 INTERVALS".

Definition labels : string :=
  "  STEP  HOURS  LAT  LON  P  T  PV  Q  Z  BLH".

(** The [nts + 1] record lines of trajectory [k]. *)
Definition records (k : nat) : list string :=
  lines (record k <$> seq 0 (nts + 1)).

(** The two lines that are not blank between the records of
    trajectory [k - 1] and those of trajectory [k]. *)
Definition separators (k : nat) : list string :=
  lines [ marker k; labels ].

(** One trajectory: marker line, blank line, column labels, the
    records, blank line. *)
Definition block (k : nat) : list string :=
  lines [ marker k; ""; labels ] ++ records k ++ lines [ "" ].

(** A run file declaring [npart] trajectories and holding [have]. *)
Definition run_file (npart have : nat) : list string :=
  header npart ++ mjoin (block <$> seq 1 have).

Definition path : string := "/data/rtraj_mosaic_1min_2019092200".

Definition world_of (f : list string) : world :=
  World "/home" {[ "/home" := []; "/data" := ["rtraj_mosaic_1min_2019092200"] ]}
        {[ path := f ]}.

(** A file whose attribute-types label is followed at once by a
    marker line, the body starting at a second marker line. *)
Definition marker_as_value : list string :=
  lines
    [ " ATTRIBUTE TYPES = ";
      " TRAJECTORY NUMBER     1 COMPRISES    88 INTERVALS";
      "";
      " TRAJECTORY NUMBER     2 COMPRISES    88 INTERVALS" ].

(** A header cut off after the attribute-types label. *)
Definition cut_header : list string :=
  lines
    [ " TRAJECTORY BASE TIME IS 2019092200";
      " ATTRIBUTE TYPES = " ].

(** The dictionary the scan makes of the header of a file. *)
Definition md_of (f : list string) : metadata :=
  match header_loop f 0 0 ∅ with
  | OK (md, _) => md
  | Raise _ => ∅
  end.


Definition base : dt.datetime := dt.Datetime 2019 9 22 0 0 0 None.

Definition attr_names : list string :=
  [ "temperature (K)"; "potential vorticity (PVU)";
    "specific humidity (kg/kg)"; "height (m)";
    "boundary layer height (m)" ].

(** The timestamps of [n] trajectories released a minute apart from
    2019-09-22. *)
Definition minutes (n : nat) : list Z :=
  (fun i => 1569110400000000000 + Z.of_nat i * 60000000000)%Z <$> seq 0 n.

(** A run file with one attribute, of code 1, and one trajectory. *)
Definition single_attribute : list string :=
  lines
    [ " TRAJECTORY BASE TIME IS 2019092200";
      " DATA BASE TIME IS 2021051700";
      " DATA INTERVAL IS    3 HOURS AND CONTAINS    6 TIMESTEPS";
      " TOTAL NUMBER OF TRAJECTORIES IS     1";
      " NUMBER OF ATTRIBUTES IS    1";
      " ATTRIBUTE TYPES = ";
      "   1";
      " NUMBER OF CLUSTERS IS    1";
      " CLUSTER POINTERS = ";
      "      1";
      " 3D TRAJECTORY ? (T OR F): T";
      " FORECAST DATA ? (T OR F): F";
      " FORWARD TRAJECTORY ? (T OR F): F";
      "" ]
  ++ block 1.

(** A run file whose second attribute code is not in the table. *)
Definition unknown_code : list string :=
  lines
    [ " TRAJECTORY BASE TIME IS 2019092200";
      " DATA BASE TIME IS 2021051700";
      " DATA INTERVAL IS    3 HOURS AND CONTAINS    6 TIMESTEPS";
      " TOTAL NUMBER OF TRAJECTORIES IS     1";
      " NUMBER OF ATTRIBUTES IS    2";
      " ATTRIBUTE TYPES = ";
      "   1 999";
      " NUMBER OF CLUSTERS IS    1";
      " CLUSTER POINTERS = ";
      "      1";
      " 3D TRAJECTORY ? (T OR F): T";
      " FORECAST DATA ? (T OR F): F";
      " FORWARD TRAJECTORY ? (T OR F): F";
      "" ]
  ++ block 1.



(** A directory with the run files of 22 and 24 September 2019, each
    of one trajectory, and a file that is not a run file. *)
Definition data_world : world :=
  World "/home"
    {[ "/home" := [];
       "/data" := [ "rtraj_mosaic_1min_2019092200"; "README";
                    "rtraj_mosaic_1min_2019092400" ] ]}
    {[ "/data/rtraj_mosaic_1min_2019092200"
         := header_on "2019092200" 1 ++ block 1;
       "/data/rtraj_mosaic_1min_2019092400"
         := header_on "2019092400" 1 ++ block 1 ]}.

(** The same directory with, on 23 September, a run file whose name
    has no underscore. *)
Definition bad_world : world :=
  World "/home"
    {[ "/home" := [];
       "/data" := [ "rtraj_mosaic_1min_2019092200"; "rtraj2019092300";
                    "rtraj_mosaic_1min_2019092400" ] ]}
    {[ "/data/rtraj_mosaic_1min_2019092200"
         := header_on "2019092200" 1 ++ block 1;
       "/data/rtraj2019092300"
         := header_on "2019092300" 1 ++ block 1;
       "/data/rtraj_mosaic_1min_2019092400"
         := header_on "2019092400" 1 ++ block 1 ]}.

(** What [read_traj] returns for a file, when it returns. *)
Definition result_of (filepath : string) (w : world)
  : pd.table * metadata :=
  match (read_traj filepath w).1 with
  | OK r => r
  | Raise _ => ([], ∅)
  end.

End Sample.

(** ** Vocabulary of the statements about the header *)

(** A line the scan would take for the start of the body. *)
Definition is_marker (raw : string) : bool :=
  match classify (norm raw) with LMarker => true | _ => false end.

(** The number of lines before the first marker line. *)
Fixpoint first_marker (f : list string) : option nat :=
  match f with
  | [] => None
  | raw :: f' => if is_marker raw then Some 0 else S <$> first_marker f'
  end.

(** A label whose value is on the next line. *)
Definition value_label (raw : string) : bool :=
  match classify (norm raw) with
  | LAttrTypes | LClusterPtrs => true
  | _ => false
  end.

(** A header line carries what its branch of the scan reads: two
    numbers for the data interval, a number for a count, and for a label
    whose value is on the next line, a next line that has a number and
    is not a marker line. *)
Definition field_ok (raw : string) (next : option string) : bool :=
  match classify (norm raw) with
  | LInterval => bool_decide (length (Str.findall_int (norm raw)) = 2)
  | LTotal | LNumAttr | LNumClusters =>
      bool_decide (Str.findall_int (norm raw) ≠ [])
  | LAttrTypes | LClusterPtrs =>
      match next with
      | Some v => negb (is_marker v) && bool_decide (Str.findall_int v ≠ [])
      | None => false
      end
  | _ => true
  end.

(** Every line before the first marker line, or every line when there
    is none, is a well-formed header line. *)
Fixpoint header_ok (f : list string) : bool :=
  match f with
  | [] => true
  | raw :: f' => is_marker raw || (field_ok raw (head f') && header_ok f')
  end.

(** The lines [next(f)] takes: one after each label whose value is on
    the next line, the scan going on after the value. *)
Fixpoint value_lines (f : list string) : nat :=
  match f with
  | [] => 0
  | raw :: f' =>
      if is_marker raw then 0
      else if value_label raw
      then match f' with
           | [] => 0
           | _ :: f'' => S (value_lines f'')
           end
      else value_lines f'
  end.

(** ** Vocabulary of the statements about the table *)

(** The record lines of a body: a first block, then for each further
    block the separator lines before it and its lines. *)
Definition body (b : list string) (rest : list (list string * list string))
  : list string :=
  b ++ mjoin ((fun sb => sb.1 ++ sb.2) <$> rest).

(** The blocks of a body, in file order. *)
Definition blocks (b : list string) (rest : list (list string * list string))
  : list (list string) :=
  b :: rest.*2.

(** The frames the reader makes of blocks. *)
Definition chunks_of (bs : list (list string)) : list pd.chunk :=
  pd.frame <$> bs.

(** Each block is one window of the reader and each separator is what
    the reader passes over after a window. *)
Definition body_ok (b : list string) (rest : list (list string * list string))
  : Prop :=
  length b = nts + 1 ∧
  Forall (fun sb => length sb.1 = 2 ∧ length sb.2 = nts + 1) rest.

(** The windows the loop reads of the rows of a body, whatever they
    hold: [nts + 1] rows, then two rows that are passed over, and so on
    until [n] windows are read or no row is left.  The last window is
    shorter when the rows end within it. *)
Fixpoint windows (n : nat) (rows : list string) : list (list string) :=
  match n with
  | 0 => []
  | S n' =>
      match rows with
      | [] => []
      | _ => take (nts + 1) rows :: windows n' (drop (nts + 1 + 2) rows)
      end
  end.

(** No line that the loop reads, or passes over after a window, has
    more than [ncols] fields. *)
Fixpoint reads_fit (ncols n : nat) (rows : list string) : bool :=
  match n with
  | 0 => true
  | S n' =>
      match rows with
      | [] => true
      | _ =>
          forallb (fun l => (pd.nfields l <=? ncols)%nat) (take (nts + 1) rows)
          && forallb (fun l => (pd.nfields l <=? ncols)%nat)
               (take 2 (drop (nts + 1) rows))
          && reads_fit ncols n' (drop (nts + 1 + 2) rows)
      end
  end.

(** The rows after the header row of the reader: the lines that are not
    blank after line [e] of the file, the first of them left out. *)
Definition body_rows (f : list string) (e : nat) : list string :=
  tail (filter (fun l => pd.blank l = false) (drop (e + 1) f)).

(** The header row of the reader, when the file has one. *)
Definition label_row (f : list string) (e : nat) : option string :=
  head (filter (fun l => pd.blank l = false) (drop (e + 1) f)).

(** The lines are those of a table of [n] columns: no line of the file
    has a quote character or a stray line end, no row has more than [n]
    fields, and the header row or the first row has [n]. *)
Definition table_lines (n : nat) (f : list string) (e : nat) : Prop :=
  Forall (fun l => pd.plain l = true) f ∧
  Forall (fun l => (pd.nfields l ≤ n)%nat) (body_rows f e) ∧
  match label_row f e, body_rows f e with
  | Some hdr, first :: _ => (pd.nfields hdr `max` pd.nfields first = n)%nat
  | _, _ => True
  end.


(** The frame that holds each given chunk under its key. *)
Definition keyed_rows (kcs : list (Z * pd.chunk)) : pd.table :=
  kcs ≫= fun kc => (fun r => (kc.1, r)) <$> kc.2.

(** The outer level of the index: the distinct keys, in row order. *)
Definition outer_index (t : pd.table) : list Z := remove_dups t.*1.

(** The rows under one outer key. *)
Definition rows_under (key : Z) (t : pd.table) : list pd.row :=
  (filter (fun kr => kr.1 = key) t).*2.

(** The evenly spaced timestamps from [t0] by [delta]. *)
Definition evenly_spaced (t0 delta : Z) (n : nat) : list Z :=
  (fun i => t0 + Z.of_nat i * delta)%Z <$> seq 0 n.

(** Midnight of the day of a datetime, in nanoseconds since
    1970-01-01. *)
Definition midnight_ns (t : dt.datetime) : Z :=
  (dt.days_from_civil (dt.year t) (dt.month t) (dt.day t) * 86400000000000)%Z.

(** Later entries are greater. *)
Definition strictly_increasing (l : list Z) : Prop :=
  ∀ (i j : nat) (a b : Z),
    i < j → l !! i = Some a → l !! j = Some b → (a < b)%Z.

(** ** Vocabulary of the statements about the days *)

(** The day count of the date of a datetime, from 1970-01-01. *)
Definition day_number (t : dt.datetime) : Z :=
  dt.days_from_civil (dt.year t) (dt.month t) (dt.day t).

(** The datetime [j] days after [t]. *)
Definition day_after (t : dt.datetime) (j : nat) : dt.datetime :=
  let '(y, m, d) := dt.civil_from_days (day_number t + Z.of_nat j) in
  dt.Datetime y m d (dt.hour t) (dt.minute t) (dt.second t) (dt.tzoffset t).

(** The first [n] days from [first] on, in ascending order. *)
Definition days_from (first : dt.datetime) (n : nat) : list dt.datetime :=
  day_after first <$> seq 0 n.

(** The seconds of the day at which a datetime stands. *)
Definition time_of_day (t : dt.datetime) : Z :=
  (dt.hour t * 3600 + dt.minute t * 60 + dt.second t)%Z.

(** The names of a directory that are run files of a day. *)
Definition run_files_of (entries : list string) (day : dt.datetime)
  : list string :=
  filter (fun name => glob.fnmatch (dt.strftime_glob day) name = true) entries.

(** The run files of the first [n] days from [first] on: day after
    day, and for each day in listing order. *)
Definition run_files_from (entries : list string) (first : dt.datetime)
    (n : nat) : list string :=
  mjoin (run_files_of entries <$> days_from first n).


(** ** Vocabulary of further statements *)

(** Some character of the string is a digit. *)
Fixpoint has_digit (s : string) : bool :=
  match s with
  | EmptyString => false
  | String c s' => Str.is_digit c || has_digit s'
  end.

(** Every character of the string is a digit. *)
Fixpoint all_digits (s : string) : bool :=
  match s with
  | EmptyString => true
  | String c s' => Str.is_digit c && all_digits s'
  end.

#[global] Instance label_eq_dec : EqDecision label.
Proof. solve_decision. Defined.

(** The keys a branch of the scan writes. *)
Definition label_keys (l : label) : list string :=
  match l with
  | LMarker | LOther => []
  | LTrajBase => ["trajectory base time"]
  | LDataBase => ["data base time"]
  | LInterval => ["data interval hours"; "data interval timesteps"]
  | LTotal => ["total number of trajectories"]
  | LNumAttr => ["number of attributes"]
  | LAttrTypes => ["attribute types"]
  | LNumClusters => ["number of clusters"]
  | LClusterPtrs => ["cluster pointers"]
  | L3D => ["3d trajectory"]
  | LForecast => ["forecast data"]
  | LForward => ["forward trajectory"]
  end.

(** Two files that differ in the case of their letters only. *)
Definition same_up_to_case (f f' : list string) : Prop :=
  Forall2 (fun a b => Str.lower a = Str.lower b) f f'.

(** The stamp of a day in the name of a run file: the four digits of
    the year, two of the month, two of the day, and [00]. *)
Definition stamp (t : dt.datetime) : string :=
  dt.pad 4 (dt.year t) +:+ dt.pad 2 (dt.month t) +:+ dt.pad 2 (dt.day t)
  +:+ "00".

(** Every character of the string is an ASCII character. *)
Fixpoint is_ascii (s : string) : bool :=
  match s with
  | EmptyString => true
  | String c s' => (Str.code c <? 128)%N && is_ascii s'
  end.

(** The end date of a call of [read_data], read when one is given. *)
Definition parse_end (end_date : option string)
  : result (option dt.datetime) :=
  match end_date with
  | Some e => Some <$> dt.fromisoformat e
  | None => OK None
  end.

(** The keys the scan can write. *)
Definition header_keys : list string :=
  [ "trajectory base time"; "data base time"; "data interval hours";
    "data interval timesteps"; "total number of trajectories";
    "number of attributes"; "attribute types"; "number of clusters";
    "cluster pointers"; "3d trajectory"; "forecast data";
    "forward trajectory" ].
(** * Properties *)

Local Open Scope nat_scope.

(** ** The header scan *)

Section HeaderScan.

#[local] Arguments classify : simpl never.
#[local] Arguments norm : simpl never.
#[local] Arguments get_numeric : simpl never.
#[local] Arguments get_date : simpl never.
#[local] Arguments get_boolean : simpl never.

Lemma get_numeric_some (line : string) :
  Str.findall_int line ≠ [] → ∃ v, get_numeric line = OK v.
Proof.
  unfold get_numeric. destruct (Str.findall_int line) as [|a [|b l]];
    [congruence | eauto | eauto].
Qed.

Lemma get_numeric_pair (line : string) :
  length (Str.findall_int line) = 2 →
  ∃ h t, get_numeric line = OK (NumList [h; t]).
Proof.
  unfold get_numeric.
  destruct (Str.findall_int line) as [|a [|b [|c l]]]; simpl; try lia.
  eauto.
Qed.

Ltac label_facts :=
  repeat match goal with
  | H : _ && _ = true |- _ => apply andb_true_iff in H; destruct H
  | H : negb _ = true |- _ => apply negb_true_iff in H
  | H : bool_decide _ = true |- _ => apply bool_decide_eq_true in H
  | H : S <$> first_marker ?f = Some _ |- _ =>
      let k := fresh "k" in
      destruct (first_marker f) as [k|] eqn:?; simpl in H; [|discriminate]
  | H : S <$> first_marker ?f = None |- _ =>
      destruct (first_marker f) eqn:?; simpl in H; [discriminate|]
  | H : Some _ = Some _ |- _ => injection H as H
  end.

(** The scan of a well-formed header that has a marker line stops at
    the first one, and the two counters then add up to the number of
    lines before it. *)
Lemma header_loop_marker (n : nat) :
  ∀ (f : list string) (k i count : nat) (md : metadata),
    length f ≤ n → first_marker f = Some k → header_ok f = true →
    ∃ md', header_loop f i count md = OK (md', count + i + k).
Proof.
  induction n as [|n IH]; intros f k i count md Hlen Hfm Hok.
  { destruct f; simpl in *; [discriminate | lia]. }
  destruct f as [|raw f']; [discriminate|].
  simpl in Hlen, Hfm, Hok. unfold is_marker, field_ok in *.
  cbn [header_loop].
  destruct (classify (norm raw)) eqn:Hc; simpl in Hok, Hfm; label_facts;
    subst.
  all: try (edestruct (IH f') as [md' ->]; [lia | eassumption | eassumption |];
            eexists; f_equal; f_equal; lia).
  - eexists. f_equal. f_equal. lia.
  - destruct (get_numeric_pair (norm raw)) as (h & t & ->); [done|]. simpl.
    edestruct (IH f') as [md' ->]; [lia | eassumption | eassumption |].
    eexists; f_equal; f_equal; lia.
  - destruct (get_numeric_some (norm raw)) as (v & ->); [done|]. simpl.
    edestruct (IH f') as [md' ->]; [lia | eassumption | eassumption |].
    eexists; f_equal; f_equal; lia.
  - destruct (get_numeric_some (norm raw)) as (v & ->); [done|]. simpl.
    edestruct (IH f') as [md' ->]; [lia | eassumption | eassumption |].
    eexists; f_equal; f_equal; lia.
  - destruct f' as [|nxt f'']; [discriminate|]. simpl in *.
    unfold is_marker in *.
    destruct (classify (norm nxt)) eqn:Hn; try discriminate;
      simpl in *; label_facts; subst;
      (destruct (get_numeric_some nxt) as (v & ->); [done|]; simpl;
       edestruct (IH f'') as [md' ->]; [lia | eassumption | eassumption |];
       eexists; f_equal; f_equal; lia).
  - destruct (get_numeric_some (norm raw)) as (v & ->); [done|]. simpl.
    edestruct (IH f') as [md' ->]; [lia | eassumption | eassumption |].
    eexists; f_equal; f_equal; lia.
  - destruct f' as [|nxt f'']; [discriminate|]. simpl in *.
    unfold is_marker in *.
    destruct (classify (norm nxt)) eqn:Hn; try discriminate;
      simpl in *; label_facts; subst;
      (destruct (get_numeric_some nxt) as (v & ->); [done|]; simpl;
       edestruct (IH f'') as [md' ->]; [lia | eassumption | eassumption |];
       eexists; f_equal; f_equal; lia).
Qed.


(** Without a marker line the scan of a well-formed header runs to the
    end of the file, and the counter holds the value lines only. *)
Lemma header_loop_no_marker (n : nat) :
  ∀ (f : list string) (i count : nat) (md : metadata),
    length f ≤ n → first_marker f = None → header_ok f = true →
    ∃ md', header_loop f i count md = OK (md', count + value_lines f).
Proof.
  induction n as [|n IH]; intros f i count md Hlen Hfm Hok.
  { destruct f; simpl in *; [eexists; f_equal; f_equal; lia | lia]. }
  destruct f as [|raw f']; [eexists; simpl; f_equal; f_equal; lia|].
  simpl in Hlen, Hfm, Hok. cbn [header_loop value_lines].
  unfold is_marker, field_ok, value_label in *.
  destruct (classify (norm raw)) eqn:Hc; simpl in Hok, Hfm; label_facts;
    subst; try discriminate.
  all: try (edestruct (IH f') as [md' ->]; [lia | eassumption | eassumption |];
            eexists; f_equal).
  - destruct (get_numeric_pair (norm raw)) as (h & t & ->); [done|]. simpl.
    edestruct (IH f') as [md' ->]; [lia | eassumption | eassumption |].
    eexists; f_equal.
  - destruct (get_numeric_some (norm raw)) as (v & ->); [done|]. simpl.
    edestruct (IH f') as [md' ->]; [lia | eassumption | eassumption |].
    eexists; f_equal.
  - destruct (get_numeric_some (norm raw)) as (v & ->); [done|]. simpl.
    edestruct (IH f') as [md' ->]; [lia | eassumption | eassumption |].
    eexists; f_equal.
  - destruct f' as [|nxt f'']; [discriminate|]. simpl in *.
    unfold is_marker in *.
    destruct (classify (norm nxt)) eqn:Hn; try discriminate;
      simpl in *; label_facts; subst;
      (destruct (get_numeric_some nxt) as (v & ->); [done|]; simpl;
       edestruct (IH f'') as [md' ->]; [lia | eassumption | eassumption |];
       eexists; f_equal; f_equal; lia).
  - destruct (get_numeric_some (norm raw)) as (v & ->); [done|]. simpl.
    edestruct (IH f') as [md' ->]; [lia | eassumption | eassumption |].
    eexists; f_equal.
  - destruct f' as [|nxt f'']; [discriminate|]. simpl in *.
    unfold is_marker in *.
    destruct (classify (norm nxt)) eqn:Hn; try discriminate;
      simpl in *; label_facts; subst;
      (destruct (get_numeric_some nxt) as (v & ->); [done|]; simpl;
       edestruct (IH f'') as [md' ->]; [lia | eassumption | eassumption |];
       eexists; f_equal; f_equal; lia).
Qed.

(** Each value line follows its label line, so they are at most half
    of the lines, and at most as many as the label lines. *)
Lemma value_lines_bound (n : nat) :
  ∀ f : list string,
    length f ≤ n →
    2 * value_lines f ≤ length f ∧
    value_lines f ≤ length (filter (fun l => value_label l = true) f).
Proof.
  induction n as [|n IH]; intros f Hlen.
  { destruct f; simpl in *; lia. }
  destruct f as [|raw f']; [simpl; lia|].
  simpl in Hlen. cbn [value_lines]. rewrite filter_cons.
  destruct (is_marker raw); [simpl; case_decide; simpl; lia|].
  destruct (value_label raw) eqn:Hv.
  - rewrite decide_True by done.
    destruct f' as [|nxt f'']; [simpl; lia|].
    destruct (IH f'') as [H1 H2]; [simpl in Hlen; lia|].
    rewrite filter_cons. simpl in *. case_decide; simpl; lia.
  - rewrite decide_False by congruence.
    destruct (IH f') as [H1 H2]; [lia|]. simpl. lia.
Qed.

End HeaderScan.

Lemma process_metadata_lines (file : string) (w : world) (f : list string) :
  files w !! os.abspath w file = Some f →
  process_metadata file w = (header_loop f 0 0 ∅, w).
Proof.
  intros Hf. unfold process_metadata, mbind, M_bind, os.open, lift.
  by rewrite Hf.
Qed.

(** C1, as the code has it: in a run file whose lines before the first
    marker line are well-formed header lines (a label whose value is on
    the next line is followed by that value, and not at once by the
    marker line), [process_metadata] returns as its count the number of
    physical lines before the first marker line, the value lines taken
    by [next(f)] included. *)
Theorem process_metadata_count (file : string) (w : world)
    (f : list string) (k : nat) :
  files w !! os.abspath w file = Some f →
  first_marker f = Some k →
  header_ok f = true →
  ∃ md, process_metadata file w = (OK (md, k), w).
Proof.
  intros Hf Hk Hok. rewrite (process_metadata_lines _ _ _ Hf).
  destruct (header_loop_marker (length f) f k 0 0 ∅) as [md ->]; eauto.
Qed.

Lemma process_metadata_count_witness :
  ∃ md, process_metadata Sample.path (Sample.world_of (Sample.run_file 3 3))
        = (OK (md, 14), Sample.world_of (Sample.run_file 3 3)).
Proof.
  apply (process_metadata_count _ _ (Sample.run_file 3 3) 14);
    vm_compute; reflexivity.
Defined.

(** C1 as stated fails: here the first marker line has one line before
    it, but it is taken as the value of the attribute-types label, and
    the scan stops at the second marker line with a count of three. *)
Lemma process_metadata_count_counterexample :
  ¬ (∀ k, first_marker Sample.marker_as_value = Some k →
       ∃ md, process_metadata Sample.path
               (Sample.world_of Sample.marker_as_value)
             = (OK (md, k), Sample.world_of Sample.marker_as_value)).
Proof.
  intros H. destruct (H 1) as [md Hmd]; [vm_compute; reflexivity|].
  vm_compute in Hmd. discriminate Hmd.
Qed.

(** C9, as the code has it: when no line is a marker line and the
    lines are well-formed header lines, [process_metadata] returns, and
    its count is the number of value lines [next(f)] took, which is at
    most half the number of lines and at most the number of label lines
    whose value is on the next line (two in a header that has each
    once); the missing marker raises nothing. *)
Theorem process_metadata_no_marker (file : string) (w : world)
    (f : list string) :
  files w !! os.abspath w file = Some f →
  first_marker f = None →
  header_ok f = true →
  ∃ md, process_metadata file w = (OK (md, value_lines f), w) ∧
        2 * value_lines f ≤ length f ∧
        value_lines f ≤ length (filter (fun l => value_label l = true) f).
Proof.
  intros Hf Hk Hok. rewrite (process_metadata_lines _ _ _ Hf).
  destruct (header_loop_no_marker (length f) f 0 0 ∅) as [md ->]; eauto.
  exists md. split; [done|]. by apply (value_lines_bound (length f)).
Qed.

Lemma process_metadata_no_marker_witness :
  ∃ md, process_metadata Sample.path (Sample.world_of (Sample.header 3))
        = (OK (md, value_lines (Sample.header 3)),
           Sample.world_of (Sample.header 3)) ∧
        2 * value_lines (Sample.header 3) ≤ length (Sample.header 3) ∧
        value_lines (Sample.header 3)
        ≤ length (filter (fun l => value_label l = true) (Sample.header 3)).
Proof.
  apply (process_metadata_no_marker _ _ (Sample.header 3));
    vm_compute; reflexivity.
Defined.

(** C9 as stated fails: a file without a marker line that ends on the
    attribute-types label makes [next(f)] raise [StopIteration]. *)
Lemma process_metadata_no_marker_counterexample :
  first_marker Sample.cut_header = None ∧
  (process_metadata Sample.path (Sample.world_of Sample.cut_header)).1
  = Raise StopIteration.
Proof. split; vm_compute; reflexivity. Qed.

(** ** The monad of the world *)

Lemma sample_header (f : list string) (e : nat) :
  snd <$> header_loop f 0 0 ∅ = OK e →
  header_loop f 0 0 ∅ = OK (Sample.md_of f, e).
Proof.
  unfold Sample.md_of. destruct (header_loop f 0 0 ∅) as [[md e']|]; [|done].
  by intros [= ->].
Qed.

Lemma sample_file (f : list string) :
  files (Sample.world_of f) !! os.abspath (Sample.world_of f) Sample.path
  = Some f.
Proof. apply lookup_singleton_eq. Qed.

Lemma bind_lift {A B} (r : result A) (k : A → M B) (w : world) :
  (lift r ≫= k) w = match r with OK a => k a w | Raise e => (Raise e, w) end.
Proof. unfold mbind, M_bind, lift. by destruct r. Qed.

Lemma bind_open {B} (p : string) (k : list string → M B) (w : world) :
  (os.open p ≫= k) w =
  match files w !! os.abspath w p with
  | Some f => k f w
  | None => (Raise (FileNotFoundError p), w)
  end.
Proof. unfold mbind, M_bind, os.open. by destruct (files w !! _). Qed.

(** ** [read_traj] on the lines of its file *)

(** What [read_traj] computes from the name of the file and its lines,
    once the header is read. *)
Lemma read_traj_unfold (filepath : string) (w : world) (f : list string)
    (md : metadata) (e : nat) :
  files w !! os.abspath w filepath = Some f →
  header_loop f 0 0 ∅ = OK (md, e) →
  read_traj filepath w =
  ((freq ← penultimate (Str.split_on "_" (os.basename filepath) "");
    traj_dt ← getitem md "trajectory base time" ≫= base_time;
    npart ← getitem md "total number of trajectories";
    names ← getitem md "attribute types" ≫= attribute_names;
    '(n, traj_list) ← none_list npart;
    reader ← (if negb (bool_decide (NoDup (col_names names)))
              then Raise (ValueError "Duplicate names are not allowed.")
              else pd.reader_of f (e + 1) (length (col_names names)));
    traj_list ← read_loop n 0 reader traj_list;
    keys ← pd.date_range (dt.strftime_Ymd traj_dt) n freq;
    df ← pd.concat traj_list keys;
    OK (df, <["attribute names" := MNames names]> md)), w).
Proof.
  intros Hf Hh. unfold read_traj.
  unfold mbind at 1. unfold M_bind.
  rewrite (process_metadata_lines _ _ _ Hf), Hh.
  rewrite bind_lift. destruct (penultimate _) as [freq|]; [|done]. simpl.
  rewrite bind_lift. destruct (getitem md "trajectory base time" ≫= base_time)
    as [traj_dt|]; [|done]. simpl.
  rewrite bind_lift. destruct (getitem md "total number of trajectories")
    as [npart|]; [|done]. simpl.
  rewrite bind_lift. destruct (getitem md "attribute types" ≫= attribute_names)
    as [names|]; [|done]. simpl.
  rewrite bind_lift. destruct (none_list npart) as [[n tl]|]; [|done]. simpl.
  unfold pd.read_csv.
  destruct (negb (bool_decide (NoDup (col_names names)))); [done|].
  unfold mbind at 1. unfold M_bind. rewrite bind_open, Hf.
  unfold lift at 1.
  destruct (pd.reader_of _ _ _) as [reader|]; [|done]. simpl.
  rewrite bind_lift. destruct (read_loop _ _ _ _) as [tl'|]; [|done]. simpl.
  rewrite bind_lift. destruct (pd.date_range _ _ _) as [keys|]; [|done]. simpl.
  rewrite bind_lift. by destruct (pd.concat _ _) as [df|].
Qed.

(** ** The reader *)

Lemma reader_of_rows (f : list string) (e ncols : nat)
    (r : pd.TextFileReader) :
  pd.reader_of f (e + 1) ncols = OK r →
  r = pd.Reader (body_rows f e) ncols true.
Proof.
  unfold pd.reader_of, body_rows.
  destruct (negb _); [done|].
  destruct (filter _ _) as [|hdr [|first rows]]; try by intros [= <-].
  destruct (_ =? _); [|done]. by intros [= <-].
Qed.

Lemma reader_of_table_lines (f : list string) (e ncols : nat) :
  table_lines ncols f e →
  pd.reader_of f (e + 1) ncols = OK (pd.Reader (body_rows f e) ncols true).
Proof.
  intros (Hplain & _ & Hw). unfold pd.reader_of.
  rewrite (proj2 (forallb_forall _ _)); cycle 1.
  { intros l Hl. rewrite list.Forall_forall in Hplain. apply Hplain.
    by apply list_elem_of_In. }
  cbn [negb]. unfold label_row, body_rows in *.
  destruct (filter _ _) as [|hdr [|first rows]]; try done.
  cbn [head tail] in Hw. by rewrite Hw, Nat.eqb_refl.
Qed.

Lemma frame_length (x : list string) : length (pd.frame x) = length x.
Proof.
  unfold pd.frame.
  destruct (mapM _ (pd.fields <$> x)) as [zs|] eqn:Hzs.
  - apply mapM_Some_1, Forall2_length in Hzs.
    rewrite length_zip_with, <- Hzs, length_fmap. lia.
  - by rewrite !length_fmap.
Qed.

(** ** The read loop *)

Lemma windows_nil (n : nat) : windows n [] = [].
Proof. by destruct n. Qed.

Lemma windows_length (n : nat) :
  ∀ rows, length (windows n rows) ≤ n.
Proof.
  induction n as [|n IH]; intros rows; [done|].
  destruct rows as [|r rows]; [simpl; lia|].
  cbn [windows length]. specialize (IH (drop (nts + 1 + 2) (r :: rows))). lia.
Qed.

Lemma windows_nonempty (n : nat) :
  ∀ rows, Forall (fun x : list string => x ≠ []) (windows n rows).
Proof.
  induction n as [|n IH]; intros rows; [constructor|].
  destruct rows as [|r rows]; [constructor|].
  cbn [windows]. constructor; [done|apply IH].
Qed.

Lemma windows_sizes (n : nat) :
  ∀ rows, Forall (fun x : list string => length x ≤ nts + 1) (windows n rows).
Proof.
  induction n as [|n IH]; intros rows; [constructor|].
  destruct rows as [|r rows]; [constructor|].
  cbn [windows]. constructor; [|apply IH]. rewrite length_take. lia.
Qed.

Lemma reads_fit_all (ncols n : nat) :
  ∀ rows, Forall (fun l => pd.nfields l ≤ ncols) rows →
          reads_fit ncols n rows = true.
Proof.
  assert (∀ l : list string, Forall (fun l => pd.nfields l ≤ ncols) l →
            forallb (fun l => pd.nfields l <=? ncols) l = true) as Hall.
  { intros l Hl. apply forallb_forall. intros x Hx.
    rewrite list.Forall_forall in Hl. apply Nat.leb_le, Hl.
    by apply list_elem_of_In. }
  induction n as [|n IH]; intros rows Hrows; [done|].
  destruct rows as [|r rows]; [done|]. cbn [reads_fit].
  rewrite !Hall, IH; auto using Forall_take, Forall_drop.
Qed.

(** The loop stores the frame of each window, in file order, until it
    has [todo] of them or no row is left; the other slots stay [None].
    It raises, and then [ParserError], when a line it reads has more
    fields than there are columns. *)
Lemma read_loop_spec (ncols todo : nat) :
  ∀ (rows : list string) (i : nat) (filled : list (option pd.chunk)),
    length filled = i →
    read_loop todo i (pd.Reader rows ncols false)
      (filled ++ replicate todo None)
    = if reads_fit ncols todo rows
      then OK (filled
               ++ (Some <$> chunks_of (windows todo rows))
               ++ replicate (todo - length (windows todo rows)) None)
      else Raise ParserError.
Proof.
  induction todo as [|todo IH]; intros rows i filled Hi.
  { simpl. by rewrite app_nil_r. }
  destruct rows as [|r rows]; [done|].
  cbn [read_loop reads_fit windows]. unfold pd.get_chunk at 1.
  cbn [pd.pending pd.ncols pd.first_chunk].
  destruct (forallb _ (take (nts + 1) (r :: rows))); [|done].
  cbn [andb replicate].
  rewrite insert_app_r_alt by lia.
  replace (i - length filled) with 0 by lia. cbn [insert list_insert].
  unfold pd.get_chunk. cbn [pd.pending pd.ncols pd.first_chunk].
  replace (drop (nts + 1 + 2) (r :: rows))
    with (drop 2 (drop (nts + 1) (r :: rows))) by (by rewrite drop_drop).
  destruct (drop (nts + 1) (r :: rows)) as [|s rest] eqn:Hrest.
  - rewrite drop_nil, windows_nil. destruct todo; simpl; by rewrite ?Nat.sub_0_r.
  - destruct (forallb _ (take 2 (s :: rest))); [|done]. cbn [andb].
    rewrite (cons_middle (Some _) filled), app_assoc.
    rewrite (IH _ (S i)) by (rewrite length_app; simpl; lia).
    destruct (reads_fit _ _ _); [|done].
    rewrite <- app_assoc. simpl. done.
Qed.

Lemma read_loop_first (ncols todo : nat) (rows : list string)
    (tl : list (option pd.chunk)) :
  rows ≠ [] →
  read_loop todo 0 (pd.Reader rows ncols true) tl
  = read_loop todo 0 (pd.Reader rows ncols false) tl.
Proof. intros Hrows. destruct todo, rows; done. Qed.

(** ** [concat] *)

Lemma omap_keyed_none (keys : list Z) (r : nat) :
  omap pd.keyed (zip keys (replicate r (@None pd.chunk))) = [].
Proof.
  revert r. induction keys as [|k keys IH]; intros [|r]; simpl; auto.
Qed.

Lemma omap_keyed_some (cs : list pd.chunk) :
  ∀ (keys : list Z) (r : nat),
    omap pd.keyed (zip keys ((Some <$> cs) ++ replicate r None))
    = zip keys cs.
Proof.
  induction cs as [|c cs IH]; intros keys r; simpl.
  - rewrite omap_keyed_none. by destruct keys.
  - destruct keys as [|k keys]; simpl; [done|]. by rewrite IH.
Qed.

Lemma concat_some (cs : list pd.chunk) (keys : list Z) (r : nat) :
  cs ≠ [] → keys ≠ [] →
  pd.concat ((Some <$> cs) ++ replicate r None) keys
  = OK (keyed_rows (zip keys cs)).
Proof.
  intros Hcs Hk. unfold pd.concat. rewrite omap_keyed_some.
  destruct cs as [|c cs]; [done|]. destruct keys as [|k keys]; [done|].
  simpl. done.
Qed.

(** ** The index of a keyed frame *)

Lemma keyed_rows_cons (k : Z) (c : pd.chunk) (kcs : list (Z * pd.chunk)) :
  keyed_rows ((k, c) :: kcs) = ((fun r => (k, r)) <$> c) ++ keyed_rows kcs.
Proof. done. Qed.

Lemma keyed_rows_keys (k : Z) (c : pd.chunk) (kcs : list (Z * pd.chunk)) :
  (keyed_rows ((k, c) :: kcs)).*1 = replicate (length c) k ++ (keyed_rows kcs).*1.
Proof.
  rewrite keyed_rows_cons, fmap_app. f_equal.
  induction c as [|r c IH]; simpl; [done|]. by f_equal.
Qed.

Lemma keyed_rows_key_in (ks : list Z) :
  ∀ (cs : list pd.chunk) (x : Z),
    x ∈ (keyed_rows (zip ks cs)).*1 → x ∈ ks.
Proof.
  induction ks as [|k ks IH]; intros [|c cs] x Hx;
    try by apply elem_of_nil in Hx.
  change (zip (k :: ks) (c :: cs)) with ((k, c) :: zip ks cs) in Hx.
  rewrite keyed_rows_keys in Hx. apply elem_of_app in Hx as [Hx|Hx].
  - apply elem_of_replicate in Hx as [-> _]. left.
  - right. by eapply IH.
Qed.

Lemma remove_dups_replicate (k : Z) (l : list Z) (m : nat) :
  k ∉ l → remove_dups (replicate (S m) k ++ l) = k :: remove_dups l.
Proof.
  intros Hk. induction m as [|m IH].
  - simpl. by destruct (decide_rel elem_of k l).
  - change (replicate (S (S m)) k ++ l) with (k :: (replicate (S m) k ++ l)).
    cbn [remove_dups].
    destruct (decide_rel elem_of k (replicate (S m) k ++ l)) as [|Hn];
      [done|].
    exfalso. apply Hn. simpl. left.
Qed.

Lemma outer_index_keyed (ks : list Z) :
  ∀ cs : list pd.chunk,
    NoDup ks → length ks = length cs → Forall (fun c => c ≠ []) cs →
    outer_index (keyed_rows (zip ks cs)) = ks.
Proof.
  unfold outer_index.
  induction ks as [|k ks IH]; intros [|c cs] Hnd Hlen Hne; try done.
  change (zip (k :: ks) (c :: cs)) with ((k, c) :: zip ks cs).
  simpl in Hlen.
  apply NoDup_cons in Hnd as [Hk Hnd]. apply Forall_cons_1 in Hne as [Hc Hne].
  rewrite keyed_rows_keys.
  destruct c as [|r c]; [done|]. cbn [length].
  rewrite remove_dups_replicate.
  - f_equal. apply IH; auto.
  - intros Hin. apply Hk. by eapply keyed_rows_key_in.
Qed.

Lemma rows_under_chunk (key k : Z) (c : pd.chunk) :
  (filter (fun kr : Z * pd.row => kr.1 = key) ((fun r => (k, r)) <$> c)).*2
  = if decide (k = key) then c else [].
Proof.
  induction c as [|r c IH].
  - by destruct (decide (k = key)).
  - rewrite fmap_cons, filter_cons. cbn [fst].
    destruct (decide (k = key)) as [Heq|Hne].
    + rewrite fmap_cons. cbn [snd]. by f_equal.
    + done.
Qed.

Lemma rows_under_absent (key : Z) (kcs : list (Z * pd.chunk)) :
  key ∉ kcs.*1 → rows_under key (keyed_rows kcs) = [].
Proof.
  unfold rows_under. induction kcs as [|[k c] kcs IH]; intros Hk; [done|].
  rewrite keyed_rows_cons, filter_app, fmap_app.
  simpl in Hk. apply not_elem_of_cons in Hk as [Hne Hk].
  rewrite (IH Hk), app_nil_r, rows_under_chunk.
  by rewrite decide_False.
Qed.

Lemma rows_under_here (key : Z) (c : pd.chunk) (kcs : list (Z * pd.chunk)) :
  key ∉ kcs.*1 → rows_under key (keyed_rows ((key, c) :: kcs)) = c.
Proof.
  intros Hk. unfold rows_under.
  rewrite keyed_rows_cons, filter_app, fmap_app.
  fold (rows_under key (keyed_rows kcs)).
  rewrite (rows_under_absent _ _ Hk), app_nil_r, rows_under_chunk.
  by rewrite decide_True.
Qed.

Lemma rows_under_keyed (ks : list Z) :
  ∀ (cs : list pd.chunk) (j : nat) (key : Z) (c : pd.chunk),
    NoDup ks → ks !! j = Some key → cs !! j = Some c →
    rows_under key (keyed_rows (zip ks cs)) = c.
Proof.
  induction ks as [|k ks IH]; intros [|c0 cs] j key c Hnd Hk Hc;
    try done.
  apply NoDup_cons in Hnd as [Hk0 Hnd].
  destruct j as [|j]; simpl in Hk, Hc.
  - injection Hk as ->. injection Hc as ->.
    change (zip (key :: ks) (c :: cs)) with ((key, c) :: zip ks cs).
    apply rows_under_here. intros Hin. apply Hk0.
    apply list_elem_of_fmap in Hin as ([a b] & -> & Hab).
    by apply elem_of_zip_l in Hab.
  - assert (key ≠ k) as Hne.
    { intros ->. apply Hk0. by eapply list_elem_of_lookup_2. }
    change (zip (k :: ks) (c0 :: cs)) with ((k, c0) :: zip ks cs).
    unfold rows_under. rewrite keyed_rows_cons, filter_app, fmap_app.
    fold (rows_under key (keyed_rows (zip ks cs))).
    rewrite (IH cs j key c), rows_under_chunk; auto.
    by rewrite decide_False.
Qed.


(** The table the loop and [concat] make of the rows of a body: each
    window under its key. *)
Lemma loop_table (ncols n : nat) (rows : list string) (keys : list Z) :
  0 < n → length keys = n →
  (tl ← read_loop n 0 (pd.Reader rows ncols true) (replicate n None);
   pd.concat tl keys)
  = if reads_fit ncols n rows
    then OK (keyed_rows (zip keys (chunks_of (windows n rows))))
    else Raise ParserError.
Proof.
  intros Hn Hk. destruct rows as [|r rows].
  - destruct n as [|n]; [lia|]. destruct keys as [|k keys]; [done|].
    cbn. unfold pd.concat. cbn. by rewrite omap_keyed_none.
  - rewrite read_loop_first by done.
    pose proof (read_loop_spec ncols n (r :: rows) 0 [] eq_refl) as Hl.
    cbn [app] in Hl. rewrite Hl.
    destruct (reads_fit _ _ _); [|done]. cbn [mbind result_bind].
    apply concat_some.
    + destruct n; [lia|]. done.
    + destruct keys; [simpl in Hk; lia|done].
Qed.

(** ** Timestamps *)

Section Timestamps.

Local Open Scope Z_scope.
#[local] Arguments Str.digit : simpl never.

Lemma unit_ns_pos (u : string) (ns : Z) : pd.unit_ns u = Some ns → 0 < ns.
Proof.
  unfold pd.unit_ns.
  repeat (destruct (String.eqb u _); [intros [= <-]; lia|]). done.
Qed.

Lemma to_offset_pos (freq : string) (delta : Z) :
  pd.to_offset freq = OK delta → 0 < delta.
Proof.
  unfold pd.to_offset. destruct (pd.split_digits freq "") as [n u].
  destruct (pd.unit_ns u) as [ns|] eqn:Hu; [|done].
  apply unit_ns_pos in Hu.
  destruct n as [|c n]; [intros [= <-]; lia|].
  destruct (dt.num _) as [k|]; [|done].
  destruct (0 <? k) eqn:Hk; [|done]. apply Z.ltb_lt in Hk.
  intros [= <-]. lia.
Qed.

Lemma date_range_spec (ts freq : string) (n : nat) (keys : list Z) :
  pd.date_range ts n freq = OK keys →
  ∃ t0 delta, pd.to_timestamp ts = OK t0 ∧ pd.to_offset freq = OK delta ∧
              keys = evenly_spaced t0 delta n.
Proof.
  unfold pd.date_range.
  destruct (pd.to_offset freq) as [delta|]; [|done]. simpl.
  destruct (pd.to_timestamp ts) as [t0|]; [|done]. simpl.
  destruct (_ && _); [|done]. intros [= <-]. eauto.
Qed.

Lemma evenly_spaced_length (t0 delta : Z) (n : nat) :
  length (evenly_spaced t0 delta n) = n.
Proof. unfold evenly_spaced. by rewrite length_fmap, length_seq. Qed.

Lemma evenly_spaced_lookup (t0 delta : Z) (n i : nat) (a : Z) :
  evenly_spaced t0 delta n !! i = Some a →
  (i < n)%nat ∧ a = t0 + Z.of_nat i * delta.
Proof.
  unfold evenly_spaced. rewrite list_lookup_fmap.
  destruct (seq 0 n !! i) as [x|] eqn:Hx; [|done].
  apply lookup_seq in Hx as [-> Hi]. simpl. intros [= <-]. done.
Qed.

Lemma evenly_spaced_take (t0 delta : Z) (n k : nat) :
  (k ≤ n)%nat → take k (evenly_spaced t0 delta n) = evenly_spaced t0 delta k.
Proof.
  intros Hk. unfold evenly_spaced. rewrite <- fmap_take. f_equal.
  by rewrite take_seq, Nat.min_l.
Qed.

Lemma evenly_spaced_increasing (t0 delta : Z) (n : nat) :
  0 < delta → strictly_increasing (evenly_spaced t0 delta n).
Proof.
  intros Hd i j a b Hij Ha Hb.
  apply evenly_spaced_lookup in Ha as [_ ->].
  apply evenly_spaced_lookup in Hb as [_ ->]. nia.
Qed.

Lemma strictly_increasing_NoDup (l : list Z) :
  strictly_increasing l → NoDup l.
Proof.
  intros Hl. apply NoDup_alt. intros i j x Hi Hj.
  destruct (Nat.lt_trichotomy i j) as [Hlt|[->|Hlt]]; [|done|].
  - specialize (Hl i j x x Hlt Hi Hj). lia.
  - specialize (Hl j i x x Hlt Hj Hi). lia.
Qed.


Lemma digit_digit_char (d : Z) :
  0 ≤ d ≤ 9 → Str.digit (dt.digit_char d) = Some d.
Proof.
  intros Hd.
  assert (d = 0 ∨ d = 1 ∨ d = 2 ∨ d = 3 ∨ d = 4 ∨ d = 5 ∨ d = 6 ∨ d = 7
          ∨ d = 8 ∨ d = 9) as Hcases by lia.
  repeat destruct Hcases as [->|Hcases]; try reflexivity.
  by subst.
Qed.

Lemma append_nil_l (b : string) : "" +:+ b = b.
Proof. done. Qed.

Lemma append_cons (c : ascii) (a b : string) :
  String c a +:+ b = String c (a +:+ b).
Proof. done. Qed.

Lemma length_append (a b : string) :
  String.length (a +:+ b) = (String.length a + String.length b)%nat.
Proof.
  induction a as [|c a IH]; [done|].
  rewrite append_cons. simpl. by rewrite IH.
Qed.

Lemma length_pad (w : nat) : ∀ z, String.length (dt.pad w z) = w.
Proof.
  induction w as [|w IH]; intros z; [done|].
  cbn [dt.pad]. rewrite length_append, IH. simpl. lia.
Qed.

(** The string [strftime] writes for a day of a year of four digits
    reads back as midnight of that day. *)
Lemma to_timestamp_strftime (t : dt.datetime) :
  dt.valid_date (dt.year t) (dt.month t) (dt.day t) = true →
  1000 ≤ dt.year t →
  pd.to_timestamp (dt.strftime_Ymd t) = OK (midnight_ns t).
Proof.
  destruct t as [y m d h mi s tz]. simpl. intros Hv Hy4.
  assert (1 ≤ y ≤ 9999 ∧ 1 ≤ m ≤ 12 ∧ 1 ≤ d ≤ 31) as (Hy & Hm & Hd).
  { unfold dt.valid_date in Hv.
    repeat (apply andb_true_iff in Hv as [Hv ?]).
    assert (dt.days_in_month y m ≤ 31).
    { unfold dt.days_in_month. repeat case_match; lia. }
    lia. }
  assert (∀ x, 0 ≤ x → Str.digit (dt.digit_char (x mod 10)) = Some (x mod 10))
    as Hdig.
  { intros x _. apply digit_digit_char. pose proof (Z.mod_pos_bound x 10). lia. }
  unfold pd.to_timestamp, dt.strftime_Ymd, dt.strftime_Y.
  cbn [dt.year dt.month dt.day].
  rewrite (proj2 (Z.ltb_ge y 10)), (proj2 (Z.ltb_ge y 100)),
    (proj2 (Z.ltb_ge y 1000)) by lia.
  unfold dt.parse_iso_date, dt.field, dt.char_at, midnight_ns.
  simpl.
  rewrite !Hdig by (repeat apply Z.div_pos; lia).
  replace (10 * (10 * (10 * (10 * 0 + y / 10 / 10 / 10 mod 10)
                       + y / 10 / 10 mod 10) + y / 10 mod 10) + y mod 10)
    with y by (clear -Hy; Z.div_mod_to_equations; lia).
  replace (10 * (10 * 0 + m / 10 mod 10) + m mod 10) with m
    by (clear -Hm; Z.div_mod_to_equations; lia).
  replace (10 * (10 * 0 + d / 10 mod 10) + d mod 10) with d
    by (clear -Hd; Z.div_mod_to_equations; lia).
  by rewrite Hv.
Qed.

(** A timestamp read from the string of a day is midnight of that day. *)
Lemma to_timestamp_midnight (t : dt.datetime) (t0 : Z) :
  dt.valid_date (dt.year t) (dt.month t) (dt.day t) = true →
  pd.to_timestamp (dt.strftime_Ymd t) = OK t0 → t0 = midnight_ns t.
Proof.
  intros Hv Ht0. destruct (Z.le_gt_cases 1000 (dt.year t)) as [Hy|Hy].
  - rewrite (to_timestamp_strftime t Hv Hy) in Ht0. by injection Ht0 as <-.
  - exfalso. revert Ht0. unfold pd.to_timestamp.
    assert (String.length (dt.strftime_Ymd t) ≠ 10%nat) as Hlen.
    { unfold dt.strftime_Ymd, dt.strftime_Y.
      repeat case_match; rewrite !length_append, !length_pad; simpl; lia. }
    apply Nat.eqb_neq in Hlen. by rewrite Hlen.
Qed.

End Timestamps.

Lemma base_time_valid (v : mdval) (t : dt.datetime) :
  base_time v = OK t →
  dt.valid_date (dt.year t) (dt.month t) (dt.day t) = true.
Proof.
  destruct v as [[s|]| | |]; try done. simpl. unfold dt.strptime_YmdH.
  destruct (negb _); [done|].
  destruct (dt.field s 0 4) as [y|]; [|done].
  destruct (dt.field s 4 2) as [m|]; [|done].
  destruct (dt.field s 6 2) as [d|]; [|done].
  destruct (dt.field s 8 2) as [h|]; [|done].
  destruct (dt.valid_date y m d) eqn:Hv; [|done].
  destruct (dt.valid_time h 0 0); [|done]. by intros [= <-].
Qed.

Lemma chunks_of_length (bs : list (list string)) :
  length (chunks_of bs) = length bs.
Proof. unfold chunks_of. by rewrite length_fmap. Qed.

Lemma blocks_length (b : list string) (rest : list (list string * list string)) :
  length (blocks b rest) = S (length rest).
Proof. unfold blocks. simpl. by rewrite length_fmap. Qed.

Lemma blocks_sizes (b : list string) (rest : list (list string * list string)) :
  body_ok b rest → Forall (fun x => length x = nts + 1) (blocks b rest).
Proof.
  intros [Hb Hrest]. unfold blocks. constructor; [done|].
  induction Hrest as [|[s x] rest [_ Hx] _ IH]; simpl; constructor; auto.
Qed.

(** On a body of whole blocks the windows are the blocks. *)
Lemma windows_body (n : nat) :
  ∀ (b : list string) (rest : list (list string * list string)),
    body_ok b rest → windows n (body b rest) = take n (blocks b rest).
Proof.
  induction n as [|n IH]; intros b rest [Hb Hrest]; [done|].
  unfold body, blocks. cbn [take].
  destruct b as [|r b0] eqn:Heqb; [simpl in Hb; unfold nts in Hb; lia|].
  rewrite <- Heqb in *. clear Heqb.
  assert (windows (S n) (b ++ mjoin ((λ sb, sb.1 ++ sb.2) <$> rest))
          = take (nts + 1) (b ++ mjoin ((λ sb, sb.1 ++ sb.2) <$> rest))
            :: windows n (drop (nts + 1 + 2)
                            (b ++ mjoin ((λ sb, sb.1 ++ sb.2) <$> rest))))
    as ->.
  { destruct b; [simpl in Hb; unfold nts in Hb; lia|done]. }
  rewrite <- Hb, take_app_length. f_equal.
  rewrite <- drop_drop, drop_app_length.
  destruct rest as [|[s b'] rest'].
  - simpl. by rewrite windows_nil, take_nil.
  - apply Forall_cons_1 in Hrest as [[Hs Hb'] Hrest'].
    cbn [fmap list_fmap mjoin list_join fst snd].
    rewrite <- (app_assoc s b'), <- Hs, drop_app_length.
    apply (IH b' rest'). by split.
Qed.

(** The index of the table that holds each window under its key. *)
Lemma keyed_windows (keys : list Z) (ws : list (list string)) :
  NoDup keys → length ws ≤ length keys →
  Forall (fun x : list string => x ≠ []) ws →
  outer_index (keyed_rows (zip keys (chunks_of ws)))
  = take (length ws) keys ∧
  ∀ (j : nat) (key : Z) (x : list string),
    keys !! j = Some key → ws !! j = Some x →
    rows_under key (keyed_rows (zip keys (chunks_of ws))) = pd.frame x.
Proof.
  intros Hnd Hle Hne.
  assert (zip keys (chunks_of ws) = zip (take (length ws) keys) (chunks_of ws))
    as ->.
  { rewrite <- (chunks_of_length ws). symmetry. apply zip_with_take_l. }
  assert (NoDup (take (length ws) keys)) as Hnd'
    by (apply (sublist_NoDup _ keys); [done|apply sublist_take]).
  split.
  - apply outer_index_keyed; [done| |].
    + rewrite length_take, chunks_of_length. lia.
    + unfold chunks_of. apply Forall_fmap.
      eapply Forall_impl; [exact Hne|]. intros x Hx. simpl.
      intros Hf. apply Hx. apply (f_equal length) in Hf.
      rewrite frame_length in Hf. by destruct x.
  - intros j key x Hk Hx.
    apply (rows_under_keyed _ _ j); [done| |].
    + rewrite lookup_take_lt; [done|]. by eapply lookup_lt_Some.
    + unfold chunks_of. by rewrite list_lookup_fmap, Hx.
Qed.



Lemma length_keyed_rows (kcs : list (Z * pd.chunk)) :
  length (keyed_rows kcs) = sum_list (length <$> kcs.*2).
Proof.
  induction kcs as [|[k c] kcs IH]; [done|].
  rewrite keyed_rows_cons, length_app, length_fmap, IH. done.
Qed.

(** ** What [read_traj] does, step by step *)

Lemma read_traj_no_file (filepath : string) (w : world) :
  files w !! os.abspath w filepath = None →
  read_traj filepath w = (Raise (FileNotFoundError filepath), w).
Proof.
  intros Hf. unfold read_traj, process_metadata.
  unfold mbind at 1. unfold M_bind. by rewrite bind_open, Hf.
Qed.

Lemma read_traj_bad_header (filepath : string) (w : world) (f : list string)
    (err : exn) :
  files w !! os.abspath w filepath = Some f →
  header_loop f 0 0 ∅ = Raise err →
  read_traj filepath w = (Raise err, w).
Proof.
  intros Hf Hh. unfold read_traj.
  unfold mbind at 1. unfold M_bind.
  by rewrite (process_metadata_lines _ _ _ Hf), Hh.
Qed.

(** [read_traj] changes nothing in the world. *)
Lemma read_traj_world (filepath : string) (w : world) :
  (read_traj filepath w).2 = w.
Proof.
  destruct (files w !! os.abspath w filepath) as [f|] eqn:Hf.
  - destruct (header_loop f 0 0 ∅) as [[md e]|err] eqn:Hh.
    + by rewrite (read_traj_unfold _ _ _ _ _ Hf Hh).
    + by rewrite (read_traj_bad_header _ _ _ _ Hf Hh).
  - by rewrite (read_traj_no_file _ _ Hf).
Qed.

Lemma sample_result (filepath : string) (w : world) :
  is_ok (read_traj filepath w).1 = true →
  (read_traj filepath w).1 = OK (Sample.result_of filepath w).
Proof.
  unfold Sample.result_of. by destruct (read_traj filepath w).1.
Qed.

Lemma sample_read (filepath : string) (w : world) :
  is_ok (read_traj filepath w).1 = true →
  read_traj filepath w
  = (OK ((Sample.result_of filepath w).1, (Sample.result_of filepath w).2), w).
Proof.
  intros Hok. rewrite (surjective_pairing (read_traj filepath w)).
  rewrite read_traj_world, (sample_result _ _ Hok).
  by destruct (Sample.result_of filepath w).
Qed.

(** What a return of [read_traj] tells of its steps. *)
Lemma read_traj_ok_inv (filepath : string) (w w' : world)
    (table : pd.table) (md' : metadata) :
  read_traj filepath w = (OK (table, md'), w') →
  w' = w ∧
  ∃ f md e freq traj_dt n names tl keys,
    files w !! os.abspath w filepath = Some f ∧
    header_loop f 0 0 ∅ = OK (md, e) ∧
    penultimate (Str.split_on "_" (os.basename filepath) "") = OK freq ∧
    getitem md "trajectory base time" ≫= base_time = OK traj_dt ∧
    md !! "total number of trajectories" = Some (MNum (NumInt n)) ∧
    getitem md "attribute types" ≫= attribute_names = OK names ∧
    NoDup (col_names names) ∧
    read_loop (Z.to_nat n) 0
      (pd.Reader (body_rows f e) (length (col_names names)) true)
      (replicate (Z.to_nat n) None) = OK tl ∧
    pd.date_range (dt.strftime_Ymd traj_dt) (Z.to_nat n) freq = OK keys ∧
    pd.concat tl keys = OK table ∧
    md' = <["attribute names" := MNames names]> md.
Proof.
  intros Hread.
  destruct (files w !! os.abspath w filepath) as [f|] eqn:Hf;
    [|by rewrite (read_traj_no_file _ _ Hf) in Hread].
  destruct (header_loop f 0 0 ∅) as [[md e]|err] eqn:Hh;
    [|by rewrite (read_traj_bad_header _ _ _ _ Hf Hh) in Hread].
  rewrite (read_traj_unfold _ _ _ _ _ Hf Hh) in Hread.
  injection Hread as Hread <-. split; [done|].
  destruct (penultimate _) as [freq|] eqn:Hfreq;
    cbn [mbind result_bind] in Hread; [|discriminate Hread].
  destruct (getitem md "trajectory base time" ≫= base_time)
    as [traj_dt|] eqn:Hbase; cbn [mbind result_bind] in Hread; [|discriminate Hread].
  change (getitem md "total number of trajectories")
    with (match md !! "total number of trajectories" with
          | Some v => OK v
          | None => Raise (KeyError (inl "total number of trajectories"))
          end) in Hread.
  destruct (md !! "total number of trajectories") as [npart|] eqn:Hn;
    cbn [mbind result_bind] in Hread; [|discriminate Hread].
  destruct (getitem md "attribute types" ≫= attribute_names)
    as [names|] eqn:Hattr; cbn [mbind result_bind] in Hread; [|discriminate Hread].
  destruct npart as [[?|]|[n|?]| |];
    cbn [none_list mbind result_bind] in Hread; try discriminate Hread.
  destruct (bool_decide (NoDup (col_names names))) eqn:Hnd;
    cbn [negb mbind result_bind] in Hread; [|discriminate Hread].
  apply bool_decide_eq_true_1 in Hnd.
  destruct (pd.reader_of _ _ _) as [reader|] eqn:Hreader;
    cbn [mbind result_bind] in Hread; [|discriminate Hread].
  apply reader_of_rows in Hreader as ->.
  destruct (read_loop _ _ _ _) as [tl|] eqn:Hloop;
    cbn [mbind result_bind] in Hread; [|discriminate Hread].
  destruct (pd.date_range _ _ _) as [keys|] eqn:Hkeys;
    cbn [mbind result_bind] in Hread; [|discriminate Hread].
  destruct (pd.concat _ _) as [df|] eqn:Hcat;
    cbn [mbind result_bind] in Hread; [|discriminate Hread].
  injection Hread as <- <-.
  by exists f, md, e, freq, traj_dt, n, names, tl, keys.
Qed.

(** ** [read_traj] on the rows of a run file *)

Section RunFile.

Variables (filepath : string) (w : world) (f : list string).
Variables (md : metadata) (e : nat) (freq : string) (traj_dt : dt.datetime).
Variables (npart : nat) (names : list string) (keys : list Z).

(** The file is there and its header is read. *)
Hypothesis Hfile : files w !! os.abspath w filepath = Some f.
Hypothesis Hheader : header_loop f 0 0 ∅ = OK (md, e).
(** The name of the file has a frequency token. *)
Hypothesis Hfreq :
  penultimate (Str.split_on "_" (os.basename filepath) "") = OK freq.
(** The header gives a base time, a trajectory count and attribute
    codes that are in the table, no two the same. *)
Hypothesis Hbase : getitem md "trajectory base time" ≫= base_time = OK traj_dt.
Hypothesis Hnpart :
  md !! "total number of trajectories" = Some (MNum (NumInt (Z.of_nat npart))).
Hypothesis Hattr : getitem md "attribute types" ≫= attribute_names = OK names.
Hypothesis Hnames : NoDup (col_names names).
(** The timestamps can be made. *)
Hypothesis Hkeys : pd.date_range (dt.strftime_Ymd traj_dt) npart freq = OK keys.

Local Abbreviation md' := (<["attribute names" := MNames names]> md).
Local Abbreviation ncols := (length (col_names names)).
Local Abbreviation rows := (body_rows f e).
Local Abbreviation ws := (windows npart (body_rows f e)).

Lemma keys_spaced :
  ∃ delta, (0 < delta)%Z ∧ pd.to_offset freq = OK delta ∧
           keys = evenly_spaced (midnight_ns traj_dt) delta npart.
Proof using Hbase Hkeys.
  destruct (date_range_spec _ _ _ _ Hkeys) as (t0 & delta & Ht0 & Hd & ->).
  exists delta. split; [by eapply to_offset_pos|]. split; [done|].
  destruct (getitem md "trajectory base time") as [v|]; [|done].
  simpl in Hbase. apply base_time_valid in Hbase.
  by rewrite (to_timestamp_midnight _ _ Hbase Ht0).
Qed.

Lemma keys_length : length keys = npart.
Proof using Hbase Hkeys.
  destruct keys_spaced as (delta & _ & _ & ->). apply evenly_spaced_length.
Qed.

Lemma keys_increasing : strictly_increasing keys.
Proof using Hbase Hkeys.
  destruct keys_spaced as (delta & Hd & _ & ->).
  by apply evenly_spaced_increasing.
Qed.

(** Once the reader is made, [read_traj] returns the table of the
    windows, or raises [ParserError] for a line that is too wide. *)
Lemma read_traj_windows (reader : pd.TextFileReader) :
  0 < npart →
  pd.reader_of f (e + 1) ncols = OK reader →
  read_traj filepath w
  = (if reads_fit ncols npart rows
     then OK (keyed_rows (zip keys (chunks_of ws)), md')
     else Raise ParserError, w).
Proof using All.
  intros Hpos Hreader. rewrite (read_traj_unfold _ _ _ _ _ Hfile Hheader).
  rewrite Hfreq. cbn [mbind result_bind]. rewrite Hbase.
  cbn [mbind result_bind].
  assert (getitem md "total number of trajectories"
          = OK (MNum (NumInt (Z.of_nat npart)))) as ->
    by (unfold getitem; by rewrite Hnpart).
  cbn [mbind result_bind]. rewrite Hattr. cbn [mbind result_bind none_list].
  rewrite bool_decide_eq_true_2 by done. cbn [negb].
  rewrite Hreader, Nat2Z.id. cbn [mbind result_bind].
  apply reader_of_rows in Hreader as ->.
  pose proof (loop_table ncols npart rows keys Hpos keys_length) as Hlt.
  destruct (read_loop _ _ _ _) as [tl|err]; cbn [mbind result_bind] in *.
  - rewrite Hkeys. cbn [mbind result_bind]. rewrite Hlt.
    by destruct (reads_fit _ _ _).
  - destruct (reads_fit _ _ _); [discriminate Hlt|]. by injection Hlt as ->.
Qed.

(** The table of a run file whose lines are those of a table: its
    outer index is the first timestamps, one per window read, and the
    rows under the [j]-th timestamp are those of the [j]-th window. *)
Lemma read_traj_table :
  0 < npart → table_lines ncols f e →
  ∃ table,
    read_traj filepath w = (OK (table, md'), w) ∧
    table = keyed_rows (zip keys (chunks_of ws)) ∧
    outer_index table = take (length ws) keys ∧
    ∀ (j : nat) (key : Z) (x : list string),
      keys !! j = Some key → ws !! j = Some x →
      rows_under key table = pd.frame x.
Proof using All.
  intros Hpos Hlines. eexists. split; [|split; [reflexivity|]].
  - rewrite (read_traj_windows _ Hpos (reader_of_table_lines _ _ _ Hlines)).
    rewrite reads_fit_all; [done|]. by destruct Hlines as (_ & ? & _).
  - apply keyed_windows.
    + apply strictly_increasing_NoDup, keys_increasing.
    + rewrite keys_length. apply windows_length.
    + apply windows_nonempty.
Qed.

End RunFile.


(** The table [read_traj] returns is that of the windows of the body,
    each under its key. *)
Lemma read_traj_ok_table (filepath : string) (w w' : world)
    (table : pd.table) (md' : metadata) :
  read_traj filepath w = (OK (table, md'), w') →
  ∃ f md e freq traj_dt npart names keys,
    files w !! os.abspath w filepath = Some f ∧
    header_loop f 0 0 ∅ = OK (md, e) ∧
    penultimate (Str.split_on "_" (os.basename filepath) "") = OK freq ∧
    getitem md "trajectory base time" ≫= base_time = OK traj_dt ∧
    md !! "total number of trajectories"
    = Some (MNum (NumInt (Z.of_nat npart))) ∧
    0 < npart ∧
    getitem md "attribute types" ≫= attribute_names = OK names ∧
    pd.date_range (dt.strftime_Ymd traj_dt) npart freq = OK keys ∧
    table = keyed_rows (zip keys (chunks_of (windows npart (body_rows f e)))) ∧
    md' = <["attribute names" := MNames names]> md.
Proof.
  intros Hread.
  apply read_traj_ok_inv in Hread as
    (_ & f & md & e & freq & traj_dt & n & names & tl & keys
       & Hf & Hh & Hfreq & Hbase & Hn & Hattr & Hnames & Hloop & Hkeys
       & Hcat & ->).
  set (npart := Z.to_nat n) in *.
  assert (0 < npart) as Hpos.
  { destruct npart; [|lia]. simpl in Hloop. injection Hloop as <-.
    discriminate Hcat. }
  assert (Z.of_nat npart = n) as Hnn by (unfold npart in *; lia).
  rewrite <- Hnn in Hn.
  pose proof (keys_length md freq traj_dt npart keys Hbase Hkeys) as Hkl.
  pose proof (loop_table (length (col_names names)) npart (body_rows f e)
                keys Hpos Hkl) as Hlt.
  rewrite Hloop in Hlt. cbn [mbind result_bind] in Hlt. rewrite Hcat in Hlt.
  destruct (reads_fit _ _ _); [|discriminate Hlt]. injection Hlt as ->.
  by exists f, md, e, freq, traj_dt, npart, names, keys.
Qed.

(** ** The windows of a short body *)

Lemma windows_cons (n : nat) (r : string) (rows : list string) :
  windows (S n) (r :: rows)
  = take (nts + 1) (r :: rows) :: windows n (drop (nts + 1 + 2) (r :: rows)).
Proof. done. Qed.

Lemma sum_list_cons (x : nat) (l : list nat) :
  sum_list (x :: l) = x + sum_list l.
Proof. done. Qed.

Lemma windows_total (n : nat) :
  ∀ rows, sum_list (length <$> windows n rows) ≤ n * (nts + 1).
Proof.
  induction n as [|n IH]; intros rows; [done|].
  destruct rows as [|r rows]; [simpl; lia|].
  rewrite windows_cons, fmap_cons, sum_list_cons, length_take.
  specialize (IH (drop (nts + 1 + 2) (r :: rows))).
  unfold nts in *. lia.
Qed.



Lemma length_keyed_zip (keys : list Z) (ws : list (list string)) :
  length ws ≤ length keys →
  length (keyed_rows (zip keys (chunks_of ws))) = sum_list (length <$> ws).
Proof.
  intros Hle. rewrite length_keyed_rows, snd_zip
    by (rewrite chunks_of_length; lia).
  unfold chunks_of. rewrite <- list_fmap_compose. f_equal.
  apply list_fmap_ext. intros i x _. apply frame_length.
Qed.

(** ** The table of a run file *)

(** C2, as the code has it: for every run file whose header is read,
    whose attribute names are distinct, whose lines are those of a
    table of as many columns as there are names (no quote character, no
    row of more fields than columns) and whose body holds the declared
    number of blocks, each block being one window of [nts + 1] = 89
    record lines ([nts] is the constant 88) and two separator lines
    standing before each further block, [read_traj] returns a table
    whose outer index is the declared number of distinct timestamps,
    with the 89 rows of the [j]-th block under the [j]-th of them; so
    three timestamps with 89 rows each for a count of three. *)
Theorem read_traj_whole_file
    (filepath : string) (w : world) (f : list string) (md : metadata)
    (e : nat) (freq : string) (traj_dt : dt.datetime) (npart : nat)
    (names : list string) (keys : list Z) (b : list string)
    (rest : list (list string * list string)) :
  files w !! os.abspath w filepath = Some f →
  header_loop f 0 0 ∅ = OK (md, e) →
  penultimate (Str.split_on "_" (os.basename filepath) "") = OK freq →
  getitem md "trajectory base time" ≫= base_time = OK traj_dt →
  md !! "total number of trajectories" = Some (MNum (NumInt (Z.of_nat npart))) →
  getitem md "attribute types" ≫= attribute_names = OK names →
  NoDup (col_names names) →
  pd.date_range (dt.strftime_Ymd traj_dt) npart freq = OK keys →
  table_lines (length (col_names names)) f e →
  body_rows f e = body b rest →
  body_ok b rest →
  length (blocks b rest) = npart →
  ∃ table,
    read_traj filepath w
    = (OK (table, <["attribute names" := MNames names]> md), w) ∧
    outer_index table = keys ∧ length keys = npart ∧ NoDup keys ∧
    (∀ key, key ∈ outer_index table →
            length (rows_under key table) = nts + 1) ∧
    (∀ j key x, keys !! j = Some key → blocks b rest !! j = Some x →
                rows_under key table = pd.frame x).
Proof.
  intros Hfile Hheader Hfreq Hbase Hnpart Hattr Hnames Hkeys Hlines Hbody
    Hblocks Hlen.
  assert (0 < npart) as Hpos by (rewrite blocks_length in Hlen; lia).
  destruct (read_traj_table filepath w f md e freq traj_dt npart names keys
              Hfile Hheader Hfreq Hbase Hnpart Hattr Hnames Hkeys Hpos Hlines)
    as (table & Hread & _ & Hidx & Hrows).
  pose proof (keys_length md freq traj_dt npart keys Hbase Hkeys) as Hkl.
  rewrite Hbody, (windows_body _ _ _ Hblocks) in Hidx, Hrows.
  rewrite (take_ge (blocks b rest) npart) in Hrows, Hidx by lia.
  rewrite take_ge in Hidx by lia.
  exists table. repeat split; try done.
  - apply strictly_increasing_NoDup.
    by apply (keys_increasing md freq traj_dt npart keys Hbase Hkeys).
  - intros key Hkey. rewrite Hidx in Hkey.
    apply list_elem_of_lookup in Hkey as [j Hj].
    destruct (lookup_lt_is_Some_2 (blocks b rest) j) as [x Hx].
    { rewrite Hlen, <- Hkl. by eapply lookup_lt_Some. }
    rewrite (Hrows j key x Hj Hx), frame_length.
    pose proof (blocks_sizes b rest Hblocks) as Hsz.
    rewrite Forall_lookup in Hsz. by apply (Hsz j).
Qed.

Lemma sample_table_lines (f : list string) (e n : nat) :
  forallb pd.plain f = true →
  forallb (fun l => pd.nfields l <=? n) (body_rows f e) = true →
  match label_row f e, body_rows f e with
  | Some hdr, first :: _ => pd.nfields hdr `max` pd.nfields first =? n
  | _, _ => true
  end = true →
  table_lines n f e.
Proof.
  intros Hp Hr Hw. split; [|split].
  - apply list.Forall_forall. intros l Hl.
    rewrite forallb_forall in Hp. by apply Hp, list_elem_of_In.
  - apply list.Forall_forall. intros l Hl.
    rewrite forallb_forall in Hr. by apply Nat.leb_le, Hr, list_elem_of_In.
  - destruct (label_row f e); [|done]. destruct (body_rows f e); [done|].
    by apply Nat.eqb_eq.
Qed.

Lemma read_traj_whole_file_witness :
  ∃ table,
    read_traj Sample.path (Sample.world_of (Sample.run_file 3 3))
    = (OK (table, <["attribute names" := MNames Sample.attr_names]>
                    (Sample.md_of (Sample.run_file 3 3))),
       Sample.world_of (Sample.run_file 3 3)) ∧
    outer_index table = Sample.minutes 3 ∧
    length (Sample.minutes 3) = 3 ∧ NoDup (Sample.minutes 3) ∧
    (∀ key, key ∈ outer_index table →
            length (rows_under key table) = nts + 1) ∧
    (∀ j key x, Sample.minutes 3 !! j = Some key →
                blocks (Sample.records 1)
                  [(Sample.separators 2, Sample.records 2);
                   (Sample.separators 3, Sample.records 3)] !! j = Some x →
                rows_under key table = pd.frame x).
Proof.
  apply (read_traj_whole_file Sample.path _ (Sample.run_file 3 3) _ 14
           "1min" Sample.base 3 _ _).
  - apply sample_file.
  - apply sample_header; vm_compute; reflexivity.
  - vm_compute; reflexivity.
  - vm_compute; reflexivity.
  - vm_compute; reflexivity.
  - vm_compute; reflexivity.
  - apply (bool_decide_unpack _). vm_compute. exact I.
  - vm_compute; reflexivity.
  - apply sample_table_lines; vm_compute; reflexivity.
  - vm_compute; reflexivity.
  - split; [reflexivity|]. repeat constructor.
  - reflexivity.
Defined.

(** C2 as stated fails: the window the loop reads is [nts + 1] = 89
    record lines, not 89 + 1. *)
Lemma read_traj_whole_file_counterexample :
  ∃ chunk reader,
    pd.get_chunk (nts + 1)
      (pd.Reader (Sample.records 1 ++ Sample.separators 2
                  ++ Sample.records 2) 10 true)
    = OK (chunk, reader) ∧
    chunk = pd.frame (Sample.records 1) ∧
    length chunk ≠ 89 + 1.
Proof.
  eexists _, _. split; [vm_compute; reflexivity|].
  split; [vm_compute; reflexivity|]. vm_compute. discriminate.
Qed.










(** ** Attribute names *)

Lemma attribute_names_table :
  attribute_names (MNum (NumList [1; 3; 4; 10; 159]%Z)) = OK Sample.attr_names.
Proof. reflexivity. Qed.

(** A list of codes with one that is not in the table raises the
    [KeyError] of the first such code. *)
Lemma attribute_names_unknown (codes : list Z) (x : Z) :
  x ∈ codes → ATTR !! x = None →
  ∃ y, y ∈ codes ∧ ATTR !! y = None ∧
       attribute_names (MNum (NumList codes)) = Raise (KeyError (inr y)).
Proof.
  unfold attribute_names.
  induction codes as [|c codes IH]; intros Hx Hnone.
  { by apply elem_of_nil in Hx. }
  cbn [mapM]. destruct (ATTR !! c) as [name|] eqn:Hc.
  - apply elem_of_cons in Hx as [->|Hx]; [congruence|].
    destruct (IH Hx Hnone) as (y & Hy & Hyn & ->).
    exists y. split; [by right|]. done.
  - exists c. split; [left|]. done.
Qed.

Lemma attribute_names_999 :
  attribute_names (MNum (NumList [1; 999]%Z)) = Raise (KeyError (inr 999%Z)).
Proof. reflexivity. Qed.

(** C5: a run file with a single attribute.  [get_numeric] gives the
    one code of the value line as a number, not as a list of one, and
    the comprehension over it raises [TypeError]: the code, which is in
    the table, is not mapped to its name. *)
Theorem read_traj_single_attribute :
  Sample.md_of Sample.single_attribute !! "attribute types"
  = Some (MNum (NumInt 1)) ∧
  ATTR !! 1%Z = Some "temperature (K)" ∧
  (read_traj Sample.path (Sample.world_of Sample.single_attribute)).1
  = Raise (TypeError "'int' object is not iterable").
Proof.
  split; [vm_compute; reflexivity|]. split; vm_compute; reflexivity.
Qed.


(** ** Days *)

Section Days.

Local Open Scope Z_scope.

(** The ordinal of a valid date is within the range of [date]. *)
Lemma toordinal_bounds (y m d : Z) :
  dt.valid_date y m d = true →
  1 ≤ dt.days_from_civil y m d + 719163 ≤ dt.max_ordinal.
Proof.
  unfold dt.valid_date. intros Hv.
  repeat (apply andb_true_iff in Hv as [Hv ?]).
  assert (dt.days_in_month y m ≤ 31).
  { unfold dt.days_in_month. repeat case_match; lia. }
  unfold dt.days_from_civil, dt.max_ordinal.
  destruct (m <=? 2) eqn:Hm2; destruct (2 <? m) eqn:Hm3;
    Z.div_mod_to_equations; lia.
Qed.

End Days.

(** ** Sequencing in the world *)

Lemma bind_ok {A B} (m : M A) (k : A → M B) (w w' : world) (a : A) :
  m w = (OK a, w') → (m ≫= k) w = k a w'.
Proof. intros Hm. unfold mbind, M_bind. by rewrite Hm. Qed.

Lemma bind_raise {A B} (m : M A) (k : A → M B) (w w' : world) (err : exn) :
  m w = (Raise err, w') → (m ≫= k) w = (Raise err, w').
Proof. intros Hm. unfold mbind, M_bind. by rewrite Hm. Qed.

Lemma mapM_result {A B} (f : A → result B) (g : A → B) (l : list A) :
  Forall (fun x => f x = OK (g x)) l → mapM f l = OK (g <$> l).
Proof.
  induction 1 as [|x l Hx _ IH]; [done|].
  cbn [mapM]. rewrite Hx. cbn [mbind result_bind]. by rewrite IH.
Qed.

Lemma mapM_glob {A} (pattern : A → string) (l : list A) (w : world) :
  mapM (fun x => glob.glob (pattern x)) l w
  = (OK ((fun x => filter (fun n => glob.fnmatch (pattern x) n = true)
                     (default [] (dirs w !! cwd w))) <$> l), w).
Proof.
  induction l as [|p ps IH]; [done|].
  cbn [mapM]. erewrite bind_ok; [|reflexivity].
  erewrite bind_ok; [|exact IH]. done.
Qed.

Lemma mapM_read_traj (dir : string) (w : world) (names : list string)
    (rs : list (pd.table * metadata)) :
  Forall2 (fun name r => (read_traj (os.join dir name) w).1 = OK r) names rs →
  mapM (fun file => read_traj (os.join dir file)) names w = (OK rs, w).
Proof.
  induction 1 as [|name r names rs Hr _ IH]; [done|].
  cbn [mapM]. erewrite bind_ok; cycle 1.
  { rewrite (surjective_pairing (read_traj _ w)), Hr, read_traj_world. done. }
  erewrite bind_ok; [|exact IH]. done.
Qed.

(** ** The days of a range *)

Section Range.

Local Open Scope Z_scope.

Lemma parse_iso_date_valid (s : string) (y m d : Z) :
  dt.parse_iso_date s = OK (y, m, d) → dt.valid_date y m d = true.
Proof.
  unfold dt.parse_iso_date.
  destruct (dt.field s 0 4) as [y'|]; [|done].
  destruct (dt.field s 5 2) as [m'|]; [|done].
  destruct (dt.field s 8 2) as [d'|]; [|done].
  destruct (_ && _); [|done].
  destruct (dt.valid_date y' m' d') eqn:Hv; [|done]. by intros [= <- <- <-].
Qed.

Lemma parse_iso_time_valid (s : string) (h mi sec : Z) :
  dt.parse_iso_time s = OK (h, mi, sec) → dt.valid_time h mi sec = true.
Proof.
  unfold dt.parse_iso_time.
  destruct (dt.field s 11 2) as [h'|]; [|done].
  destruct (dt.field s 14 2) as [mi'|]; [|done].
  destruct (dt.field s 17 2) as [sec'|]; [|done].
  destruct (_ && _); [|done].
  destruct (dt.valid_time h' mi' sec') eqn:Hv; [|by case_match].
  by intros [= <- <- <-].
Qed.

(** What [fromisoformat] reads is a date of the calendar and a time of
    the day. *)
Lemma fromisoformat_valid (s : string) (t : dt.datetime) :
  dt.fromisoformat s = OK t →
  dt.valid_date (dt.year t) (dt.month t) (dt.day t) = true ∧
  0 ≤ time_of_day t < 86400.
Proof.
  unfold dt.fromisoformat.
  destruct (dt.parse_iso_date s) as [[[y m] d]|] eqn:Hd;
    [apply parse_iso_date_valid in Hd|by repeat case_match].
  destruct (dt.parse_iso_time s) as [[[h mi] sec]|] eqn:Ht.
  - apply parse_iso_time_valid in Ht.
    assert (0 ≤ h * 3600 + mi * 60 + sec < 86400) as Htod.
    { unfold dt.valid_time in Ht.
      repeat (apply andb_true_iff in Ht as [Ht ?]). lia. }
    repeat case_match; try done; cbn [mbind result_bind];
      try (destruct (dt.parse_iso_tz s); cbn [mbind result_bind]; [|done]);
      by intros [= <-].
  - repeat case_match; try done; cbn [mbind result_bind].
    intros [= <-]. split; [done|]. unfold time_of_day. simpl. lia.
Qed.

Lemma add_days_after (t : dt.datetime) (j : nat) :
  1 ≤ dt.toordinal t →
  dt.toordinal t + Z.of_nat j ≤ dt.max_ordinal →
  dt.add_days t (Z.of_nat j) = OK (day_after t j).
Proof.
  intros Hlo Hhi. unfold dt.add_days, day_after.
  rewrite (proj2 (andb_true_iff _ _)) by (split; lia).
  unfold dt.toordinal, day_number.
  replace (dt.days_from_civil (dt.year t) (dt.month t) (dt.day t) + 719163
           + Z.of_nat j - 719163)
    with (dt.days_from_civil (dt.year t) (dt.month t) (dt.day t)
          + Z.of_nat j) by lia.
  by destruct (dt.civil_from_days _) as [[y m] d].
Qed.

(** [daterange] yields the start and the days after it, one for each
    whole day between the start and the end, in ascending order. *)
Lemma daterange_days (first last : dt.datetime)
    (end_date : option dt.datetime) (delta : Z) :
  default first end_date = last →
  dt.sub last first = OK delta →
  dt.valid_date (dt.year first) (dt.month first) (dt.day first) = true →
  dt.toordinal first + delta / 86400 ≤ dt.max_ordinal →
  daterange first end_date = OK (days_from first (Z.to_nat (delta / 86400 + 1))).
Proof.
  intros Hlast Hsub Hv Hmax.
  unfold daterange. cbv zeta. rewrite Hlast, Hsub.
  cbn [mbind result_bind]. unfold dt.days, days_from.
  apply mapM_result. apply list.Forall_forall. intros j Hj.
  apply elem_of_seq in Hj as [_ Hj].
  pose proof (toordinal_bounds _ _ _ Hv).
  apply add_days_after; unfold dt.toordinal in *; lia.
Qed.

(** Between two dates without offset the whole days are the calendar
    days, less one when the time of day of the end is before that of
    the start. *)
Lemma whole_days_naive (first last : dt.datetime) (delta : Z) :
  dt.tzoffset first = None →
  dt.sub last first = OK delta →
  0 ≤ time_of_day first < 86400 → 0 ≤ time_of_day last < 86400 →
  delta / 86400
  = day_number last - day_number first
    - (if time_of_day last <? time_of_day first then 1 else 0).
Proof.
  intros Hz Hsub Hf Hl. unfold dt.sub in Hsub. rewrite Hz in Hsub.
  destruct (dt.tzoffset last); [done|]. injection Hsub as <-.
  unfold dt.local_seconds, time_of_day, day_number in *.
  destruct (_ <? _) eqn:Hlt;
    [apply Z.ltb_lt in Hlt|apply Z.ltb_ge in Hlt];
    Z.div_mod_to_equations; lia.
Qed.

End Range.

(** ** [read_data] *)

(** C6, as the code has it: for a directory that exists and two dates
    that [fromisoformat] reads, both without an offset or both with
    one, [read_data] returns one entry per run file whose name matches
    the stamp of a day, the days being the start and the days after it,
    one for each whole day between the start and the end, in ascending
    order, and the files of a day in listing order; a day without a
    matching file gives no entry and no error.  Between dates without
    an offset the whole days are the calendar days from the first to
    the last, less one when the time of day of the end is before that
    of the start: the day of the end is then left out.  Each matching
    file is one that [read_traj] reads.  The world is on return as it
    was. *)
Theorem read_data_range (input_dir start_date : string)
    (end_date : option string) (w : world) (entries : list string)
    (first last : dt.datetime) (delta : Z)
    (rs : list (pd.table * metadata)) :
  Str.starts_with "/" (cwd w) = true →
  is_Some (dirs w !! cwd w) →
  dirs w !! os.abspath w input_dir = Some entries →
  dt.fromisoformat start_date = OK first →
  match end_date with
  | Some e => dt.fromisoformat e = OK last
  | None => last = first
  end →
  dt.sub last first = OK delta →
  (dt.toordinal first + delta / 86400 ≤ dt.max_ordinal)%Z →
  Forall2 (fun name r => (read_traj (os.join input_dir name) w).1 = OK r)
          (run_files_from entries first (Z.to_nat (delta / 86400 + 1))) rs →
  read_data input_dir start_date end_date w = (OK rs, w) ∧
  (dt.tzoffset first = None →
   (delta / 86400
    = day_number last - day_number first
      - (if time_of_day last <? time_of_day first then 1 else 0))%Z).
Proof.
  intros Habs [here Hhere] Hdir Hfirst Hend Hsub Hmax Hread.
  destruct (fromisoformat_valid _ _ Hfirst) as [Hv1 Ht1].
  assert (∃ end_dt, match end_date with
                    | Some e => lift (Some <$> dt.fromisoformat e)
                    | None => mret None
                    end w = (OK end_dt, w) ∧
                    default first end_dt = last ∧
                    (0 ≤ time_of_day last < 86400)%Z)
    as (end_dt & Hend_dt & Hlast & Ht2).
  { destruct end_date as [e|].
    - exists (Some last). unfold lift. rewrite Hend.
      by destruct (fromisoformat_valid _ _ Hend).
    - subst last. by exists None. }
  split; [|intros Hz; by apply whole_days_naive].
  unfold read_data.
  erewrite bind_ok; cycle 1.
  { unfold os.isdir. rewrite Hdir. reflexivity. }
  rewrite bool_decide_eq_true_2 by eauto. cbn [negb].
  rewrite bind_lift, Hfirst.
  erewrite bind_ok; [|exact Hend_dt].
  erewrite bind_ok; [|reflexivity].
  erewrite bind_ok; cycle 1.
  { unfold os.chdir. rewrite Hdir. reflexivity. }
  rewrite bind_lift, (daterange_days first last end_dt delta Hlast Hsub Hv1 Hmax).
  erewrite bind_ok; [|apply mapM_glob].
  cbn [cwd dirs files]. rewrite Hdir. cbn [default].
  erewrite bind_ok; cycle 1.
  { unfold os.chdir, os.abspath, os.join. cbn [cwd dirs files].
    rewrite Habs, Hhere. reflexivity. }
  replace (World (cwd w) (dirs w) (files w)) with w by by destruct w.
  by apply mapM_read_traj.
Qed.

Lemma read_data_range_witness :
  read_data "/data" "2019-09-22" (Some "2019-09-24") Sample.data_world
  = (OK [ Sample.result_of "/data/rtraj_mosaic_1min_2019092200"
            Sample.data_world;
          Sample.result_of "/data/rtraj_mosaic_1min_2019092400"
            Sample.data_world ],
     Sample.data_world) ∧
  (dt.tzoffset (dt.Datetime 2019 9 22 0 0 0 None) = None →
   (172800 / 86400
    = day_number (dt.Datetime 2019 9 24 0 0 0 None)
      - day_number (dt.Datetime 2019 9 22 0 0 0 None)
      - (if time_of_day (dt.Datetime 2019 9 24 0 0 0 None)
            <? time_of_day (dt.Datetime 2019 9 22 0 0 0 None)
         then 1 else 0))%Z).
Proof.
  apply (read_data_range "/data" "2019-09-22" (Some "2019-09-24")
           Sample.data_world
           [ "rtraj_mosaic_1min_2019092200"; "README";
             "rtraj_mosaic_1min_2019092400" ]
           (dt.Datetime 2019 9 22 0 0 0 None)
           (dt.Datetime 2019 9 24 0 0 0 None) 172800).
  - vm_compute; reflexivity.
  - exists []. vm_compute; reflexivity.
  - vm_compute; reflexivity.
  - vm_compute; reflexivity.
  - vm_compute; reflexivity.
  - vm_compute; reflexivity.
  - vm_compute. discriminate.
  - replace (run_files_from _ _ _)
      with [ "rtraj_mosaic_1min_2019092200"; "rtraj_mosaic_1min_2019092400" ]
      by (vm_compute; reflexivity).
    apply Forall2_cons.
    split; [apply sample_result; vm_compute; reflexivity|].
    apply Forall2_cons.
    split; [apply sample_result; vm_compute; reflexivity|].
    apply Forall2_nil_2.
Defined.

(** C6 as stated fails: both strings are dates that [fromisoformat]
    reads, the run file of the 24th matches the stamp of its day and is
    one that [read_traj] reads, and the 24th is a day of the range; yet
    the end being at midnight and the start at noon, [read_data]
    returns the entry of the 22nd alone. *)
Lemma read_data_range_counterexample :
  dt.fromisoformat "2019-09-22T12:00:00"
  = OK (dt.Datetime 2019 9 22 12 0 0 None) ∧
  dt.fromisoformat "2019-09-24T00:00:00"
  = OK (dt.Datetime 2019 9 24 0 0 0 None) ∧
  run_files_of [ "rtraj_mosaic_1min_2019092200"; "README";
                 "rtraj_mosaic_1min_2019092400" ]
    (dt.Datetime 2019 9 24 0 0 0 None)
  = [ "rtraj_mosaic_1min_2019092400" ] ∧
  is_ok (read_traj "/data/rtraj_mosaic_1min_2019092400"
           Sample.data_world).1 = true ∧
  length <$> (read_data "/data" "2019-09-22T12:00:00"
                (Some "2019-09-24T00:00:00") Sample.data_world).1
  = OK 1.
Proof.
  split; [vm_compute; reflexivity|]. split; [vm_compute; reflexivity|].
  split; [vm_compute; reflexivity|]. split; vm_compute; reflexivity.
Qed.

(** C7: a call whose start date is naive and whose end date carries an
    offset.  Both strings are read, the working directory is changed to
    the data directory, and the subtraction of the two dates in
    [daterange] raises [TypeError] before the working directory is set
    back: the caller is left in the data directory. *)
Theorem read_data_leaves_cwd_changed :
  cwd Sample.data_world = "/home" ∧
  (read_data "/data" "2019-09-22" (Some "2019-09-24T00:00:00+00:00")
     Sample.data_world).1
  = Raise (TypeError "can't subtract offset-naive and offset-aware datetimes") ∧
  cwd (read_data "/data" "2019-09-22" (Some "2019-09-24T00:00:00+00:00")
         Sample.data_world).2
  = "/data".
Proof.
  split; [reflexivity|]. split; vm_compute; reflexivity.
Qed.

(** * Further properties *)

(** ** The helpers of the header scan *)

Section Helpers.

#[local] Arguments Str.digit : simpl never.

Lemma digit_runs_nil (s : string) (cur : option Z) :
  Str.digit_runs s cur = [] ↔ cur = None ∧ has_digit s = false.
Proof.
  revert cur. induction s as [|c s IH]; intros cur; simpl.
  - destruct cur; split; try done. by intros [? _].
  - unfold Str.is_digit. destruct (Str.digit c) as [d|]; simpl.
    + rewrite IH. split; [by intros [? _]|by intros [_ ?]].
    + destruct cur; [split; [done|by intros [? _]]|]. rewrite IH. done.
Qed.

Lemma digit_runs_some_nonempty (s : string) (n : Z) :
  Str.digit_runs s (Some n) ≠ [].
Proof. intros H. apply digit_runs_nil in H as [? _]. done. Qed.

(** On a line of ASCII characters that is not longer than the longest
    numeral Python converts, [get_numeric] raises exactly when the line
    has no digit, and the exception is then [IndexError]; on any other
    such line it returns. *)
Theorem get_numeric_shape (line : string) :
  is_ascii line = true → String.length line ≤ 4300 →
  (get_numeric line = Raise IndexError ↔ has_digit line = false) ∧
  is_ok (get_numeric line) = has_digit line.
Proof.
  intros _ _. unfold get_numeric, Str.findall_int.
  pose proof (digit_runs_nil line None) as [Hnil1 Hnil2].
  destruct (Str.digit_runs line None) as [|a [|b ms]] eqn:Hruns;
    destruct (has_digit line) eqn:Hd;
    try (by destruct (Hnil1 eq_refl));
    try (by specialize (Hnil2 (conj eq_refl eq_refl))).
  all: by split.
Qed.

Lemma get_numeric_shape_witness :
  (get_numeric " cluster pointers = " = Raise IndexError
   ↔ has_digit " cluster pointers = " = false) ∧
  is_ok (get_numeric " cluster pointers = ")
  = has_digit " cluster pointers = ".
Proof.
  apply (get_numeric_shape " cluster pointers = ").
  - reflexivity.
  - vm_compute. lia.
Defined.

Lemma take_digits_spec (n : nat) :
  ∀ s d, Str.take_digits n s = Some d →
         String.length d = n ∧ all_digits d = true ∧
         String.prefix d s = true.
Proof.
  induction n as [|n IH]; intros s d; simpl.
  - intros [= <-]. repeat split. by destruct s.
  - destruct s as [|c s]; [done|].
    destruct (Str.is_digit c) eqn:Hc; [|done].
    destruct (Str.take_digits n s) as [d'|] eqn:Hd; [|done].
    simpl. intros [= <-]. destruct (IH s d' Hd) as (Hl & Ha & Hp).
    simpl. rewrite Hc, Ha, Hl. repeat split; try done.
    by destruct (ascii_dec c c).
Qed.

(** What [get_date] finds is ten digits that stand in the line. *)
Theorem get_date_ten_digits (line d : string) :
  get_date line = Some d →
  String.length d = 10 ∧ all_digits d = true ∧ Str.contains d line = true.
Proof.
  unfold get_date. induction line as [|c line IH].
  - simpl. done.
  - cbn [Str.search_digits10].
    destruct (Str.take_digits 10 (String c line)) as [d'|] eqn:Hd.
    + intros [= <-]. apply take_digits_spec in Hd as (Hl & Ha & Hp).
      repeat split; try done. cbn [Str.contains]. by rewrite Hp.
    + intros Hs. destruct (IH Hs) as (Hl & Ha & Hc).
      repeat split; try done. cbn [Str.contains]. rewrite Hc.
      apply orb_true_r.
Qed.

Lemma get_date_ten_digits_witness :
  String.length "2019092200" = 10 ∧ all_digits "2019092200" = true ∧
  Str.contains "2019092200" " trajectory base time is 2019092200" = true.
Proof.
  apply (get_date_ten_digits " trajectory base time is 2019092200").
  reflexivity.
Defined.

Lemma contains_colon_app (pre rest : string) :
  Str.contains ":" (pre +:+ ":" +:+ rest) = true.
Proof.
  induction pre as [|a pre IH].
  { change ("" +:+ ":" +:+ rest) with (String ":" rest).
    cbn [Str.contains String.prefix].
    destruct (ascii_dec ":" ":"); [by destruct rest|done]. }
  change (String a pre +:+ ":" +:+ rest)
    with (String a (pre +:+ ":" +:+ rest)).
  cbn [Str.contains]. rewrite IH. apply orb_true_r.
Qed.

Lemma last_field_last_colon (pre rest : string) :
  Str.contains ":" rest = false →
  Str.last_field (pre +:+ ":" +:+ rest) = Str.lstrip_space rest.
Proof.
  intros Hrest. induction pre as [|a pre IH].
  - change ("" +:+ ":" +:+ rest) with (String ":" rest).
    cbn [Str.last_field]. rewrite Hrest. reflexivity.
  - change (String a pre +:+ ":" +:+ rest)
      with (String a (pre +:+ ":" +:+ rest)).
    cbn [Str.last_field]. rewrite contains_colon_app. cbn [negb].
    rewrite andb_false_r. cbn [Str.contains].
    rewrite contains_colon_app, orb_true_r. exact IH.
Qed.

(** On a line of ASCII characters that has a colon, the flag
    [get_boolean] reads is what follows the last colon of the line: it
    is true when that, the white space after the colon left out, is the
    one letter [t], and false for anything else, a [t] followed by a
    blank included. *)
Theorem get_boolean_last_colon (pre rest : string) :
  is_ascii (pre +:+ ":" +:+ rest) = true →
  Str.contains ":" rest = false →
  get_boolean (pre +:+ ":" +:+ rest)
  = bool_decide (Str.lstrip_space rest = "t").
Proof.
  intros _ Hrest. unfold get_boolean.
  rewrite (last_field_last_colon _ _ Hrest).
  destruct (String.eqb_spec (Str.lstrip_space rest) "t") as [Heq|Hne].
  - by rewrite bool_decide_eq_true_2.
  - by rewrite bool_decide_eq_false_2.
Qed.

Lemma get_boolean_last_colon_witness :
  get_boolean (" 3d trajectory ? (t or f)" +:+ ":" +:+ " t ")
  = bool_decide (Str.lstrip_space " t " = "t").
Proof.
  apply (get_boolean_last_colon " 3d trajectory ? (t or f)" " t ");
    reflexivity.
Defined.

End Helpers.

(** ** The scan, whatever the file *)

Section Scan.

#[local] Arguments classify : simpl never.
#[local] Arguments norm : simpl never.
#[local] Arguments get_numeric : simpl never.
#[local] Arguments get_date : simpl never.
#[local] Arguments get_boolean : simpl never.

(** Takes a hypothesis that a step of the scan returned through its
    reads of numbers and of the next line. *)
Ltac scan_step H :=
  repeat match type of H with
  | (get_numeric ?l ≫= _) = OK _ =>
      let v := fresh "v" in
      destruct (get_numeric l) as [v|] eqn:?; cbn [mbind result_bind] in H;
      [|discriminate H]
  | match ?v with NumInt _ => _ | NumList _ => _ end = OK _ =>
      destruct v as [?|[|? [|? [|? ?]]]]; try discriminate H
  | match ?f with [] => _ | _ :: _ => _ end = OK _ =>
      destruct f as [|? ?]; [discriminate H|]
  end.

(** The count is never more than the lines the scan went through. *)
Lemma header_loop_count_le (n : nat) :
  ∀ (f : list string) (i count : nat) (md md' : metadata) (c : nat),
    length f ≤ n → header_loop f i count md = OK (md', c) →
    c ≤ count + i + length f.
Proof.
  induction n as [|n IH]; intros f i count md md' c Hlen H.
  { destruct f; simpl in *; [injection H as _ <-|]; lia. }
  destruct f as [|raw f']; [simpl in H; injection H as _ <-; lia|].
  cbn [header_loop] in H. simpl in Hlen.
  destruct (classify (norm raw)); scan_step H;
    try (injection H as _ <-; simpl; lia);
    try (apply IH in H; simpl in *; lia).
Qed.

(** A key stays as it was when no line takes a branch that writes it. *)
Lemma header_loop_key_absent (k : string) (n : nat) :
  ∀ (f : list string) (i count : nat) (md md' : metadata) (c : nat),
    length f ≤ n →
    Forall (fun raw => k ∉ label_keys (classify (norm raw))) f →
    header_loop f i count md = OK (md', c) →
    md' !! k = md !! k.
Proof.
  induction n as [|n IH]; intros f i count md md' c Hlen Hk H.
  { destruct f; simpl in *; [by injection H as <- _|lia]. }
  destruct f as [|raw f']; [simpl in H; by injection H as <- _|].
  cbn [header_loop] in H. simpl in Hlen.
  apply Forall_cons_1 in Hk as [Hraw Hk].
  destruct (classify (norm raw)); scan_step H;
    try (by injection H as <- _);
    try (apply Forall_cons_1 in Hk as [_ Hk]);
    (apply IH in H; [|simpl in *; lia|done]);
    rewrite H; simpl in Hraw;
    repeat (rewrite lookup_insert_ne; [|intros <-; apply Hraw; set_solver]);
    done.
Qed.

Lemma digit_lower (c : ascii) : Str.digit (Str.lower_ascii c) = Str.digit c.
Proof. destruct c as [[] [] [] [] [] [] [] []]; reflexivity. Qed.

Lemma digit_runs_lower (s : string) :
  ∀ cur, Str.digit_runs (Str.lower s) cur = Str.digit_runs s cur.
Proof.
  induction s as [|c s IH]; intros cur; [done|].
  cbn [Str.lower Str.digit_runs]. rewrite digit_lower.
  destruct (Str.digit c); [apply IH|]. destruct cur; by rewrite IH.
Qed.

Lemma get_numeric_case (a b : string) :
  Str.lower a = Str.lower b → get_numeric a = get_numeric b.
Proof.
  intros Hab. unfold get_numeric, Str.findall_int.
  by rewrite <- (digit_runs_lower a), <- (digit_runs_lower b), Hab.
Qed.

Lemma header_loop_case (n : nat) :
  ∀ (f f' : list string) (i count : nat) (md : metadata),
    length f ≤ n → same_up_to_case f f' →
    header_loop f i count md = header_loop f' i count md.
Proof.
  induction n as [|n IH]; intros f f' i count md Hlen Hff.
  { destruct Hff; [done|simpl in Hlen; lia]. }
  destruct Hff as [|a b fr fr' Hab Hrest]; [done|].
  cbn [header_loop]. simpl in Hlen.
  assert (norm b = norm a) as -> by (unfold norm; by rewrite Hab).
  destruct (classify (norm a));
    try (apply IH; [lia|done]);
    try (destruct (get_numeric (norm a)) as [v|]; cbn [mbind result_bind];
         [|done];
         try (destruct v as [?|[|? [|? [|? ?]]]]; try done);
         apply IH; [lia|done]).
  all: try done.
  all: try (destruct (get_numeric (norm a)) as [v|]; cbn [mbind result_bind];
            [apply IH; [lia|done]|done]).
  all: destruct Hrest as [|x y fr fr' Hxy Hrest]; [done|];
    lazy beta iota; rewrite (get_numeric_case x y Hxy);
    destruct (get_numeric y) as [v|]; cbn [mbind result_bind]; [|done];
    apply IH; [simpl in Hlen; lia|done].
Qed.

End Scan.

(** The labels of the header are matched without regard to case, and so
    is everything the scan reads: two files that differ in the case of
    their letters only give the same dictionary and the same count, or
    the same exception. *)
Theorem process_metadata_case_insensitive (file : string) (w w' : world)
    (f f' : list string) :
  files w !! os.abspath w file = Some f →
  files w' !! os.abspath w' file = Some f' →
  same_up_to_case f f' →
  (process_metadata file w).1 = (process_metadata file w').1.
Proof.
  intros Hf Hf' Hff.
  rewrite (process_metadata_lines _ _ _ Hf), (process_metadata_lines _ _ _ Hf').
  by apply (header_loop_case (length f)).
Qed.

Lemma process_metadata_case_insensitive_witness :
  (process_metadata Sample.path (Sample.world_of (Sample.run_file 1 1))).1
  = (process_metadata Sample.path
       (Sample.world_of (Str.lower <$> Sample.run_file 1 1))).1.
Proof.
  apply (process_metadata_case_insensitive Sample.path _ _
           (Sample.run_file 1 1) (Str.lower <$> Sample.run_file 1 1)).
  - apply sample_file.
  - apply sample_file.
  - apply Forall2_fmap_r, Forall_Forall2_diag, list.Forall_forall.
    intros x _. clear. induction x as [|c x IH]; [done|].
    simpl. rewrite <- IH. f_equal.
    destruct c as [[] [] [] [] [] [] [] []]; reflexivity.
Defined.

(** Whatever the file, the count [process_metadata] returns is at most
    the number of its lines, and the dictionary has no key but the
    twelve the scan writes; the world is left as it was. *)
Theorem process_metadata_bounds (file : string) (w w' : world)
    (f : list string) (md : metadata) (c : nat) :
  files w !! os.abspath w file = Some f →
  process_metadata file w = (OK (md, c), w') →
  w' = w ∧ c ≤ length f ∧ ∀ k, is_Some (md !! k) → k ∈ header_keys.
Proof.
  intros Hf. rewrite (process_metadata_lines _ _ _ Hf). intros [= Hh <-].
  split; [done|]. split.
  - apply (header_loop_count_le (length f)) in Hh; [lia|done].
  - intros k [v Hv]. destruct (decide (k ∈ header_keys)) as [|Hk]; [done|].
    exfalso.
    rewrite (header_loop_key_absent k (length f) f 0 0 ∅ md c) in Hv;
      [done|done| |done].
    apply list.Forall_forall. intros raw _ Hin. apply Hk.
    unfold header_keys. destruct (classify (norm raw)); simpl in Hin;
      repeat (apply elem_of_cons in Hin as [->|Hin]);
      try (by apply elem_of_nil in Hin); by repeat constructor.
Qed.

Lemma process_metadata_bounds_witness :
  Sample.world_of (Sample.run_file 3 3) = Sample.world_of (Sample.run_file 3 3) ∧
  14 ≤ length (Sample.run_file 3 3) ∧
  ∀ k, is_Some (Sample.md_of (Sample.run_file 3 3) !! k) → k ∈ header_keys.
Proof.
  apply (process_metadata_bounds Sample.path _ _ (Sample.run_file 3 3)).
  - apply sample_file.
  - rewrite (process_metadata_lines _ _ _ (sample_file _)).
    rewrite (sample_header _ 14); [done|vm_compute; reflexivity].
Defined.

(** ** [read_traj], whatever the file *)

Lemma append_empty (s : string) : s +:+ "" = s.
Proof.
  induction s as [|a s IH]; [done|].
  change (String a (s +:+ "") = String a s). by rewrite IH.
Qed.

Lemma append_char (s t : string) (c : ascii) :
  (s +:+ String c EmptyString) +:+ t = s +:+ String c t.
Proof.
  induction s as [|a s IH]; [done|].
  change (String a ((s +:+ String c EmptyString) +:+ t)
          = String a (s +:+ String c t)).
  by rewrite IH.
Qed.

Lemma split_on_no_sep (sep : ascii) (s : string) :
  ∀ cur, Str.contains (String sep EmptyString) s = false →
         Str.split_on sep s cur = [cur +:+ s].
Proof.
  induction s as [|c s IH]; intros cur Hc.
  - simpl. by rewrite append_empty.
  - cbn [Str.contains String.prefix] in Hc.
    apply orb_false_iff in Hc as [Hp Hc].
    destruct (ascii_dec sep c) as [->|Hne].
    { by destruct s. }
    cbn [Str.split_on].
    rewrite (proj2 (Ascii.eqb_neq c sep)) by congruence.
    by rewrite (IH _ Hc), append_char.
Qed.

(** A file whose name has no underscore has no frequency token: once
    the header is read, [read_traj] raises [IndexError], whatever the
    header and the body say. *)
Theorem read_traj_no_token (filepath : string) (w : world)
    (f : list string) (md : metadata) (e : nat) :
  files w !! os.abspath w filepath = Some f →
  header_loop f 0 0 ∅ = OK (md, e) →
  Str.contains "_" (os.basename filepath) = false →
  read_traj filepath w = (Raise IndexError, w).
Proof.
  intros Hf Hh Hname. rewrite (read_traj_unfold _ _ _ _ _ Hf Hh).
  by rewrite (split_on_no_sep _ _ _ Hname).
Qed.

Lemma read_traj_no_token_witness :
  read_traj "/data/rtraj2019092200"
    (World "/" ∅ {[ "/data/rtraj2019092200" := Sample.run_file 1 1 ]})
  = (Raise IndexError,
     World "/" ∅ {[ "/data/rtraj2019092200" := Sample.run_file 1 1 ]}).
Proof.
  apply (read_traj_no_token _ _ (Sample.run_file 1 1)
           (Sample.md_of (Sample.run_file 1 1)) 14).
  - apply lookup_singleton_eq.
  - apply sample_header. vm_compute; reflexivity.
  - vm_compute; reflexivity.
Defined.

(** A file whose header scan returns and whose name has a frequency
    token, but that has no line for the base time: [read_traj] raises
    the [KeyError] of that key. *)
Theorem read_traj_no_base_time (filepath : string) (w : world)
    (f : list string) (md : metadata) (e : nat) (freq : string) :
  files w !! os.abspath w filepath = Some f →
  header_loop f 0 0 ∅ = OK (md, e) →
  penultimate (Str.split_on "_" (os.basename filepath) "") = OK freq →
  Forall (fun raw => classify (norm raw) ≠ LTrajBase) f →
  read_traj filepath w = (Raise (KeyError (inl "trajectory base time")), w).
Proof.
  intros Hf Hh Hfreq Hno. rewrite (read_traj_unfold _ _ _ _ _ Hf Hh), Hfreq.
  cbn [mbind result_bind].
  assert (getitem md "trajectory base time"
          = Raise (KeyError (inl "trajectory base time"))) as ->; [|done].
  unfold getitem.
  rewrite (header_loop_key_absent "trajectory base time" (length f)
             f 0 0 ∅ md e); [done|done| |done].
  eapply Forall_impl; [exact Hno|]. intros raw Hraw Hin.
  destruct (classify (norm raw)) eqn:Hc; try congruence;
    cbn [label_keys] in Hin;
    repeat (apply elem_of_cons in Hin as [Hin|Hin]; [discriminate Hin|]);
    by apply elem_of_nil in Hin.
Qed.

Lemma read_traj_no_base_time_witness :
  read_traj Sample.path (Sample.world_of (drop 1 (Sample.run_file 1 1)))
  = (Raise (KeyError (inl "trajectory base time")),
     Sample.world_of (drop 1 (Sample.run_file 1 1))).
Proof.
  apply (read_traj_no_base_time _ _ (drop 1 (Sample.run_file 1 1))
           (Sample.md_of (drop 1 (Sample.run_file 1 1))) 13 "1min").
  - apply sample_file.
  - apply sample_header. vm_compute; reflexivity.
  - vm_compute; reflexivity.
  - apply (bool_decide_unpack _). vm_compute. exact I.
Defined.

(** A list of codes with one that is not in the table: when the header
    scan returns, the file name has a frequency token, and the header
    gives a base time and a trajectory count, [read_traj] raises the
    [KeyError] of a code of the list that the table does not have, and
    reads nothing of the body. *)
Theorem read_traj_unknown_code (filepath : string) (w : world)
    (f : list string) (md : metadata) (e : nat) (freq : string)
    (traj_dt : dt.datetime) (npart : mdval) (codes : list Z) (x : Z) :
  files w !! os.abspath w filepath = Some f →
  header_loop f 0 0 ∅ = OK (md, e) →
  penultimate (Str.split_on "_" (os.basename filepath) "") = OK freq →
  getitem md "trajectory base time" ≫= base_time = OK traj_dt →
  md !! "total number of trajectories" = Some npart →
  md !! "attribute types" = Some (MNum (NumList codes)) →
  x ∈ codes → ATTR !! x = None →
  ∃ y, y ∈ codes ∧ ATTR !! y = None ∧
       read_traj filepath w = (Raise (KeyError (inr y)), w).
Proof.
  intros Hf Hh Hfreq Hbase Hn Hcodes Hx Hnone.
  destruct (attribute_names_unknown codes x Hx Hnone) as (y & Hy & Hyn & Hnames).
  exists y. split; [done|]. split; [done|].
  rewrite (read_traj_unfold _ _ _ _ _ Hf Hh), Hfreq.
  cbn [mbind result_bind]. rewrite Hbase. cbn [mbind result_bind].
  assert (getitem md "total number of trajectories" = OK npart) as ->
    by (unfold getitem; by rewrite Hn).
  cbn [mbind result_bind].
  assert (getitem md "attribute types" ≫= attribute_names
          = Raise (KeyError (inr y))) as ->; [|done].
  unfold getitem. rewrite Hcodes. cbn [mbind result_bind]. exact Hnames.
Qed.

Lemma read_traj_unknown_code_witness :
  ∃ y, y ∈ [1%Z; 999%Z] ∧ ATTR !! y = None ∧
       read_traj Sample.path (Sample.world_of Sample.unknown_code)
       = (Raise (KeyError (inr y)), Sample.world_of Sample.unknown_code).
Proof.
  apply (read_traj_unknown_code Sample.path _ Sample.unknown_code
           (Sample.md_of Sample.unknown_code) 14 "1min" Sample.base
           (MNum (NumInt 1)) [1%Z; 999%Z] 999%Z).
  - apply sample_file.
  - apply sample_header. vm_compute; reflexivity.
  - vm_compute; reflexivity.
  - vm_compute; reflexivity.
  - vm_compute; reflexivity.
  - vm_compute; reflexivity.
  - right. left.
  - vm_compute; reflexivity.
Defined.

(** ** The size of the table *)

(** Whatever the file holds, [read_traj] returns a table only when the
    header declares one trajectory at least, and the table has then at
    most [nts + 1] rows for each trajectory declared, and at most as
    many timestamps in its outer index as trajectories declared:
    nothing is read beyond the declared count and nothing is padded. *)
Theorem read_traj_size (filepath : string) (w w' : world)
    (table : pd.table) (md : metadata) :
  read_traj filepath w = (OK (table, md), w') →
  ∃ n, md !! "total number of trajectories" = Some (MNum (NumInt n)) ∧
       (1 ≤ n)%Z ∧
       length table ≤ Z.to_nat n * (nts + 1) ∧
       length (outer_index table) ≤ Z.to_nat n.
Proof.
  intros Hread. apply read_traj_ok_table in Hread as
    (f & md0 & e & freq & traj_dt & npart & names & keys
       & Hf & Hh & Hfreq & Hbase & Hn & Hpos & Hattr & Hkeys & -> & ->).
  pose proof (keys_length md0 freq traj_dt npart keys Hbase Hkeys) as Hkl.
  pose proof (windows_length npart (body_rows f e)) as Hwl.
  exists (Z.of_nat npart). rewrite Nat2Z.id.
  split; [by rewrite lookup_insert_ne|]. split; [lia|]. split.
  - rewrite length_keyed_zip by lia. apply windows_total.
  - destruct (keyed_windows keys (windows npart (body_rows f e)))
      as [-> _];
      [apply strictly_increasing_NoDup;
       by apply (keys_increasing md0 freq traj_dt npart keys)
      |lia|apply windows_nonempty|].
    rewrite length_take. lia.
Qed.

Lemma read_traj_size_witness :
  ∃ n, (Sample.result_of Sample.path
          (Sample.world_of (Sample.run_file 5 3))).2
         !! "total number of trajectories" = Some (MNum (NumInt n)) ∧
       (1 ≤ n)%Z ∧
       length (Sample.result_of Sample.path
                 (Sample.world_of (Sample.run_file 5 3))).1
       ≤ Z.to_nat n * (nts + 1) ∧
       length (outer_index
                 (Sample.result_of Sample.path
                    (Sample.world_of (Sample.run_file 5 3))).1)
       ≤ Z.to_nat n.
Proof.
  apply (read_traj_size Sample.path (Sample.world_of (Sample.run_file 5 3))
           (Sample.world_of (Sample.run_file 5 3))).
  apply sample_read. vm_compute; reflexivity.
Defined.

(** ** The names of the attributes *)

Lemma mapM_ok_Forall2 {A B} (g : A → result B) (l : list A) :
  ∀ ys, mapM g l = OK ys → Forall2 (fun x y => g x = OK y) l ys.
Proof.
  induction l as [|x l IH]; intros ys.
  - intros [= <-]. constructor.
  - cbn [mapM]. destruct (g x) as [y|] eqn:Hy; cbn [mbind result_bind];
      [|done].
    destruct (mapM g l) as [ys'|]; cbn [mbind result_bind]; [|done].
    intros [= <-]. constructor; [done|by apply IH].
Qed.

(** The dictionary [read_traj] returns holds under [attribute names]
    the names the table gives to the codes of the header, one for each
    code and in their order. *)
Theorem read_traj_names (filepath : string) (w w' : world)
    (table : pd.table) (md : metadata) :
  read_traj filepath w = (OK (table, md), w') →
  ∃ codes names,
    md !! "attribute types" = Some (MNum (NumList codes)) ∧
    md !! "attribute names" = Some (MNames names) ∧
    Forall2 (fun code name => ATTR !! code = Some name) codes names.
Proof.
  intros Hread. apply read_traj_ok_inv in Hread as
    (_ & f & md0 & e & freq & traj_dt & n & names & tl & keys
       & Hf & Hh & Hfreq & Hbase & Hn & Hattr & Hnames & Hloop & Hkeys
       & Hcat & ->).
  unfold getitem in Hattr.
  destruct (md0 !! "attribute types") as [v|] eqn:Hv;
    cbn [mbind result_bind] in Hattr; [|discriminate Hattr].
  destruct v as [[?|]|[?|codes]| |]; try discriminate Hattr.
  exists codes, names. split; [by rewrite lookup_insert_ne|].
  split; [by rewrite lookup_insert_eq|].
  cbn [attribute_names] in Hattr. apply mapM_ok_Forall2 in Hattr.
  eapply Forall2_impl; [exact Hattr|].
  intros code name Hcn. simpl in Hcn.
  destruct (ATTR !! code) as [?|]; [by injection Hcn as ->|discriminate Hcn].
Qed.

Lemma read_traj_names_witness :
  ∃ codes names,
    (Sample.result_of Sample.path (Sample.world_of (Sample.run_file 1 1))).2
      !! "attribute types" = Some (MNum (NumList codes)) ∧
    (Sample.result_of Sample.path (Sample.world_of (Sample.run_file 1 1))).2
      !! "attribute names" = Some (MNames names) ∧
    Forall2 (fun code name => ATTR !! code = Some name) codes names.
Proof.
  apply (read_traj_names Sample.path (Sample.world_of (Sample.run_file 1 1))
           (Sample.world_of (Sample.run_file 1 1))
           (Sample.result_of Sample.path
              (Sample.world_of (Sample.run_file 1 1))).1).
  apply sample_read. vm_compute; reflexivity.
Defined.

(** ** The names [read_data] takes *)

Section Names.

Lemma all_digits_app (a b : string) :
  all_digits (a +:+ b) = all_digits a && all_digits b.
Proof.
  induction a as [|c a IH]; [done|].
  rewrite append_cons. cbn [all_digits]. by rewrite IH, andb_assoc.
Qed.

Lemma all_digits_pad (w : nat) : ∀ z, all_digits (dt.pad w z) = true.
Proof.
  induction w as [|w IH]; intros z; [done|].
  cbn [dt.pad]. rewrite all_digits_app, IH. cbn [all_digits andb].
  rewrite andb_true_r. unfold Str.is_digit.
  rewrite (digit_digit_char (z mod 10)); [done|].
  pose proof (Z.mod_pos_bound z 10). lia.
Qed.

Lemma all_digits_stamp (t : dt.datetime) : all_digits (stamp t) = true.
Proof.
  unfold stamp. by rewrite !all_digits_app, !all_digits_pad.
Qed.

(** From the year 1000 on, [%Y] writes the four digits of the year. *)
Lemma strftime_glob_stamp (t : dt.datetime) :
  (1000 ≤ dt.year t)%Z →
  dt.strftime_glob t = "rtraj" +:+ String "*" (stamp t).
Proof.
  intros Hy. unfold dt.strftime_glob, stamp, dt.strftime_Y.
  rewrite (proj2 (Z.ltb_ge (dt.year t) 10)) by lia.
  rewrite (proj2 (Z.ltb_ge (dt.year t) 100)) by lia.
  by rewrite (proj2 (Z.ltb_ge (dt.year t) 1000)) by lia.
Qed.

Lemma digit_not_star (c : ascii) :
  Str.is_digit c = true → Ascii.eqb c "*" = false.
Proof.
  intros Hc. destruct (Ascii.eqb_spec c "*") as [->|Hne]; [|done].
  vm_compute in Hc. discriminate Hc.
Qed.

(** A pattern of digits matches itself and nothing else. *)
Lemma fnmatch_digits (s : string) :
  all_digits s = true → ∀ n, glob.fnmatch s n = true ↔ n = s.
Proof.
  induction s as [|c s IH]; intros Hs n.
  - cbn [glob.fnmatch]. apply String.eqb_eq.
  - cbn [all_digits] in Hs. apply andb_true_iff in Hs as [Hc Hs].
    cbn [glob.fnmatch]. rewrite (digit_not_star c Hc).
    destruct n as [|d n]; [done|].
    rewrite andb_true_iff, (IH Hs), Ascii.eqb_eq.
    split; [by intros [-> ->]|by intros [= -> ->]].
Qed.

(** A star takes any start of the name. *)
Lemma fnmatch_star (p : string) :
  ∀ n, glob.fnmatch (String "*" p) n = true ↔
       ∃ a b, n = a +:+ b ∧ glob.fnmatch p b = true.
Proof.
  induction n as [|c n IH].
  - change (glob.fnmatch (String "*" p) "")
      with (glob.fnmatch p "" || false).
    rewrite orb_false_r. split.
    + intros H. by exists "", "".
    + intros (a & b & Hab & H). destruct a as [|c a].
      * rewrite append_nil_l in Hab. by subst b.
      * rewrite append_cons in Hab. discriminate Hab.
  - change (glob.fnmatch (String "*" p) (String c n))
      with (glob.fnmatch p (String c n) || glob.fnmatch (String "*" p) n).
    rewrite orb_true_iff, IH. split.
    + intros [H|(a & b & -> & H)].
      * by exists "", (String c n).
      * by exists (String c a), b.
    + intros (a & b & Hab & H). destruct a as [|c' a].
      * left. rewrite append_nil_l in Hab. by subst b.
      * right. rewrite append_cons in Hab. injection Hab as -> ->.
        by exists a, b.
Qed.

(** Characters other than the star stand for themselves. *)
Lemma fnmatch_prefix (l p : string) :
  ∀ n, Str.contains "*" l = false →
       (glob.fnmatch (l +:+ p) n = true ↔
        ∃ n', n = l +:+ n' ∧ glob.fnmatch p n' = true).
Proof.
  induction l as [|c l IH]; intros n Hl.
  - rewrite append_nil_l. split.
    + intros H. by exists n.
    + intros (n' & Hn & H). rewrite append_nil_l in Hn. by subst n'.
  - cbn [Str.contains String.prefix] in Hl.
    apply orb_false_iff in Hl as [Hc Hl].
    destruct (ascii_dec "*" c) as [<-|Hne]; [by destruct l|].
    rewrite append_cons. cbn [glob.fnmatch].
    rewrite (proj2 (Ascii.eqb_neq c "*")) by congruence.
    destruct n as [|d n].
    + split; [done|]. intros (n' & Hn & _).
      rewrite append_cons in Hn. discriminate Hn.
    + rewrite andb_true_iff, Ascii.eqb_eq, (IH n Hl). split.
      * intros [-> (n' & -> & H)]. exists n'. by rewrite append_cons.
      * intros (n' & Hn & H). rewrite append_cons in Hn.
        injection Hn as -> ->. split; [done|]. by exists n'.
Qed.

End Names.

(** For a day of the year 1000 or later, the pattern [read_data] hands
    to [glob] matches the names that start with [rtraj] and end with
    the stamp of the day, whatever stands between, an underscore or
    not, and no other name. *)
Theorem run_file_pattern (day : dt.datetime) (name : string) :
  (1000 ≤ dt.year day)%Z →
  glob.fnmatch (dt.strftime_glob day) name = true ↔
  ∃ mid, name = "rtraj" +:+ mid +:+ stamp day.
Proof.
  intros Hy. rewrite (strftime_glob_stamp day Hy).
  etrans; [by apply fnmatch_prefix|]. split.
  - intros (n' & -> & H). apply fnmatch_star in H as (a & b & -> & H).
    apply fnmatch_digits in H as ->; [|apply all_digits_stamp].
    by exists a.
  - intros (mid & ->). exists (mid +:+ stamp day). split; [done|].
    apply fnmatch_star. exists mid, (stamp day). split; [done|].
    by apply fnmatch_digits; [apply all_digits_stamp|].
Qed.

Lemma run_file_pattern_witness :
  glob.fnmatch (dt.strftime_glob Sample.base) "rtraj2019092200" = true ↔
  ∃ mid, "rtraj2019092200" = "rtraj" +:+ mid +:+ stamp Sample.base.
Proof.
  apply (run_file_pattern Sample.base "rtraj2019092200").
  vm_compute. discriminate.
Defined.

(** ** [read_data], whatever the dates *)

(** An end that is before the start, by a second or by days, gives no
    day at all. *)
Lemma daterange_backwards (first last : dt.datetime) (delta : Z) :
  dt.sub last first = OK delta → (delta < 0)%Z →
  daterange first (Some last) = OK [].
Proof.
  intros Hsub Hneg. unfold daterange. cbv zeta.
  change (default first (Some last)) with last.
  rewrite Hsub. cbn [mbind result_bind]. unfold dt.days.
  assert (delta / 86400 + 1 ≤ 0)%Z as Hle
    by (Z.div_mod_to_equations; lia).
  destruct (delta / 86400 + 1)%Z as [|p|p]; [done|lia|done].
Qed.

Lemma parse_end_lift (end_date : option string) (w : world) :
  match end_date with
  | Some e => lift (Some <$> dt.fromisoformat e)
  | None => mret None
  end w = (parse_end end_date, w).
Proof. by destruct end_date. Qed.

(** What [read_data] does once the directory is found and the dates
    are read. *)
Lemma read_data_unfold (input_dir start_date : string)
    (end_date : option string) (w : world) (entries : list string)
    (first : dt.datetime) (end_dt : option dt.datetime) :
  Str.starts_with "/" (cwd w) = true →
  is_Some (dirs w !! cwd w) →
  dirs w !! os.abspath w input_dir = Some entries →
  dt.fromisoformat start_date = OK first →
  parse_end end_date = OK end_dt →
  read_data input_dir start_date end_date w =
  match daterange first end_dt with
  | OK dates =>
      mapM (fun file => read_traj (os.join input_dir file))
           (mjoin (run_files_of entries <$> dates)) w
  | Raise err =>
      (Raise err, World (os.abspath w input_dir) (dirs w) (files w))
  end.
Proof.
  intros Habs [here Hhere] Hdir Hfirst Hend.
  unfold read_data.
  erewrite bind_ok; cycle 1.
  { unfold os.isdir. rewrite Hdir. reflexivity. }
  rewrite bool_decide_eq_true_2 by eauto. cbn [negb].
  rewrite bind_lift, Hfirst.
  erewrite bind_ok; [|by rewrite parse_end_lift, Hend].
  erewrite bind_ok; [|reflexivity].
  erewrite bind_ok; cycle 1.
  { unfold os.chdir. rewrite Hdir. reflexivity. }
  rewrite bind_lift.
  destruct (daterange first end_dt) as [dates|err]; [|done].
  erewrite bind_ok; [|apply mapM_glob].
  cbn [cwd dirs files]. rewrite Hdir. cbn [default].
  erewrite bind_ok; cycle 1.
  { unfold os.chdir, os.abspath, os.join. cbn [cwd dirs files].
    rewrite Habs, Hhere. reflexivity. }
  replace (World (cwd w) (dirs w) (files w)) with w by by destruct w.
  done.
Qed.

Lemma mapM_read_traj_world (dir : string) (names : list string) :
  ∀ w, (mapM (fun file => read_traj (os.join dir file)) names w).2 = w.
Proof.
  induction names as [|name names IH]; intros w; [done|].
  cbn [mapM]. unfold mbind at 1. unfold M_bind.
  pose proof (read_traj_world (os.join dir name) w) as Hw.
  destruct (read_traj (os.join dir name) w) as [[r|err] w1];
    simpl in Hw; subst w1; [|done].
  unfold mbind at 1. unfold M_bind.
  pose proof (IH w) as Hw.
  destruct (mapM (fun file => read_traj (os.join dir file)) names w)
    as [[rs|err] w2]; simpl in Hw; by subst w2.
Qed.

Lemma mapM_read_traj_raise (dir : string) (w : world)
    (good rest : list string) (bad : string) (err : exn) :
  Forall (fun name => is_ok (read_traj (os.join dir name) w).1 = true) good →
  (read_traj (os.join dir bad) w).1 = Raise err →
  mapM (fun file => read_traj (os.join dir file)) (good ++ bad :: rest) w
  = (Raise err, w).
Proof.
  intros Hgood Hbad. induction Hgood as [|name good Hname _ IH].
  - cbn [app mapM]. apply bind_raise.
    by rewrite (surjective_pairing (read_traj _ w)), Hbad, read_traj_world.
  - change ((name :: good) ++ bad :: rest)
      with (name :: (good ++ bad :: rest)).
    cbn [mapM].
    destruct (read_traj (os.join dir name) w).1 as [r|] eqn:Hr;
      [|discriminate Hname].
    erewrite bind_ok; cycle 1.
    { by rewrite (surjective_pairing (read_traj _ w)), Hr, read_traj_world. }
    by apply bind_raise.
Qed.

(** An end date before the start date is no error: [read_data] looks
    for no file, reads none, and returns the empty list, the working
    directory being on return what it was.  The end is before the start
    as soon as its time is, on the same day too. *)
Theorem read_data_reversed_range (input_dir start_date end_date : string)
    (w : world) (first last : dt.datetime) (delta : Z) :
  Str.starts_with "/" (cwd w) = true →
  is_Some (dirs w !! cwd w) →
  is_Some (dirs w !! os.abspath w input_dir) →
  dt.fromisoformat start_date = OK first →
  dt.fromisoformat end_date = OK last →
  dt.sub last first = OK delta → (delta < 0)%Z →
  read_data input_dir start_date (Some end_date) w = (OK [], w).
Proof.
  intros Habs Hhere [entries Hdir] Hfirst Hlast Hsub Hneg.
  rewrite (read_data_unfold _ _ _ _ entries first (Some last));
    [|done|done|done|done|].
  - by rewrite (daterange_backwards _ _ _ Hsub Hneg).
  - unfold parse_end. by rewrite Hlast.
Qed.

Lemma read_data_reversed_range_witness :
  read_data "/data" "2019-09-22T12:00:00" (Some "2019-09-22T11:59:59")
    Sample.data_world
  = (OK [], Sample.data_world).
Proof.
  apply (read_data_reversed_range "/data" "2019-09-22T12:00:00"
           "2019-09-22T11:59:59" Sample.data_world
           (dt.Datetime 2019 9 22 12 0 0 None)
           (dt.Datetime 2019 9 22 11 59 59 None) (-1)).
  - vm_compute; reflexivity.
  - exists []. vm_compute; reflexivity.
  - exists [ "rtraj_mosaic_1min_2019092200"; "README";
             "rtraj_mosaic_1min_2019092400" ].
    vm_compute; reflexivity.
  - vm_compute; reflexivity.
  - vm_compute; reflexivity.
  - vm_compute; reflexivity.
  - lia.
Defined.

(** One run file that [read_traj] cannot read loses the whole call:
    [read_data] raises the exception of the first such file, in the
    order of the days and of the listing, and returns nothing of the
    files read before it.  The working directory is by then set back. *)
Theorem read_data_first_bad_file (input_dir start_date : string)
    (end_date : option string) (w : world) (entries : list string)
    (first : dt.datetime) (end_dt : option dt.datetime)
    (dates : list dt.datetime) (good rest : list string) (bad : string)
    (err : exn) :
  Str.starts_with "/" (cwd w) = true →
  is_Some (dirs w !! cwd w) →
  dirs w !! os.abspath w input_dir = Some entries →
  dt.fromisoformat start_date = OK first →
  parse_end end_date = OK end_dt →
  daterange first end_dt = OK dates →
  mjoin (run_files_of entries <$> dates) = good ++ bad :: rest →
  Forall (fun name => is_ok (read_traj (os.join input_dir name) w).1 = true)
         good →
  (read_traj (os.join input_dir bad) w).1 = Raise err →
  read_data input_dir start_date end_date w = (Raise err, w).
Proof.
  intros Habs Hhere Hdir Hfirst Hend Hdates Hfiles Hgood Hbad.
  rewrite (read_data_unfold _ _ _ _ entries first end_dt) by done.
  rewrite Hdates, Hfiles. by apply mapM_read_traj_raise.
Qed.

Lemma read_data_first_bad_file_witness :
  read_data "/data" "2019-09-22" (Some "2019-09-24") Sample.bad_world
  = (Raise IndexError, Sample.bad_world).
Proof.
  apply (read_data_first_bad_file "/data" "2019-09-22" (Some "2019-09-24")
           Sample.bad_world
           [ "rtraj_mosaic_1min_2019092200"; "rtraj2019092300";
             "rtraj_mosaic_1min_2019092400" ]
           (dt.Datetime 2019 9 22 0 0 0 None)
           (Some (dt.Datetime 2019 9 24 0 0 0 None))
           [ dt.Datetime 2019 9 22 0 0 0 None;
             dt.Datetime 2019 9 23 0 0 0 None;
             dt.Datetime 2019 9 24 0 0 0 None ]
           [ "rtraj_mosaic_1min_2019092200" ]
           [ "rtraj_mosaic_1min_2019092400" ]
           "rtraj2019092300").
  - vm_compute; reflexivity.
  - exists []. vm_compute; reflexivity.
  - vm_compute; reflexivity.
  - vm_compute; reflexivity.
  - vm_compute; reflexivity.
  - vm_compute; reflexivity.
  - vm_compute; reflexivity.
  - apply Forall_cons. split; [vm_compute; reflexivity|apply Forall_nil_2].
  - vm_compute; reflexivity.
Defined.

(** Where [read_data] leaves the caller.  Called from a working
    directory that exists, with dates of the shapes [fromisoformat] is
    described for, it returns or raises with the world as it was, its
    working directory included, in every case but one: when the
    directory is found, both dates are read and [daterange] raises.
    Then the exception is that of [daterange] and the working directory
    is left at the data directory; nothing else of the world differs. *)
Theorem read_data_world (input_dir start_date : string)
    (end_date : option string) (w : world) :
  Str.starts_with "/" (cwd w) = true →
  is_Some (dirs w !! cwd w) →
  (∀ what, dt.fromisoformat start_date ≠ Raise (Unmodelled what)) →
  (∀ e what, end_date = Some e →
             dt.fromisoformat e ≠ Raise (Unmodelled what)) →
  (read_data input_dir start_date end_date w).2 = w ∨
  ∃ first end_dt err,
    dt.fromisoformat start_date = OK first ∧
    parse_end end_date = OK end_dt ∧
    daterange first end_dt = Raise err ∧
    read_data input_dir start_date end_date w
    = (Raise err, World (os.abspath w input_dir) (dirs w) (files w)).
Proof.
  intros Habs Hhere _ _.
  destruct (dirs w !! os.abspath w input_dir) as [entries|] eqn:Hdir;
    cycle 1.
  { left. unfold read_data.
    erewrite bind_ok; cycle 1.
    { unfold os.isdir. rewrite Hdir. reflexivity. }
    by rewrite bool_decide_eq_false_2 by apply is_Some_None. }
  destruct (dt.fromisoformat start_date) as [first|err] eqn:Hfirst;
    cycle 1.
  { left. unfold read_data.
    erewrite bind_ok; cycle 1.
    { unfold os.isdir. rewrite Hdir. reflexivity. }
    rewrite bool_decide_eq_true_2 by eauto. cbn [negb].
    by rewrite bind_lift, Hfirst. }
  destruct (parse_end end_date) as [end_dt|err] eqn:Hend; cycle 1.
  { left. unfold read_data.
    erewrite bind_ok; cycle 1.
    { unfold os.isdir. rewrite Hdir. reflexivity. }
    rewrite bool_decide_eq_true_2 by eauto. cbn [negb].
    rewrite bind_lift, Hfirst.
    erewrite bind_raise; [done|]. by rewrite parse_end_lift, Hend. }
  pose proof (read_data_unfold _ _ _ _ entries first end_dt
                Habs Hhere Hdir Hfirst Hend) as Hrun.
  destruct (daterange first end_dt) as [dates|err] eqn:Hdates.
  - left. rewrite Hrun. apply mapM_read_traj_world.
  - right. by exists first, end_dt, err.
Qed.

Lemma read_data_world_witness :
  (read_data "/data" "2019-09-22" (Some "2019-09-24T00:00:00+00:00")
     Sample.data_world).2 = Sample.data_world ∨
  ∃ first end_dt err,
    dt.fromisoformat "2019-09-22" = OK first ∧
    parse_end (Some "2019-09-24T00:00:00+00:00") = OK end_dt ∧
    daterange first end_dt = Raise err ∧
    read_data "/data" "2019-09-22" (Some "2019-09-24T00:00:00+00:00")
      Sample.data_world
    = (Raise err,
       World (os.abspath Sample.data_world "/data")
         (dirs Sample.data_world) (files Sample.data_world)).
Proof.
  apply (read_data_world "/data" "2019-09-22"
           (Some "2019-09-24T00:00:00+00:00") Sample.data_world).
  - vm_compute; reflexivity.
  - exists []. vm_compute; reflexivity.
  - intros what. vm_compute. discriminate.
  - intros e what [= <-]. vm_compute. discriminate.
Defined.
